(** * The API access layer of the library catalogue UI

    A shallow embedding of [src/services/api.ts] and of the reading-list page
    handlers that call it, together with the JavaScript notions they rest on:
    strings as sequences of UTF-16 code units, untyped JSON values, property
    reads that raise on [null]/[undefined], truthiness, [JSON.parse],
    promises that resolve, reject or stay pending. *)

From Stdlib Require Import List ZArith NArith Bool String Ascii Lia.
From Stdlib Require Import DecimalString DecimalPos DecimalZ.
Import ListNotations.

Set Warnings "-register-all".

Local Open Scope string_scope.
Local Open Scope list_scope.
Local Open Scope Z_scope.

(* ====================================================================== *)
(** ** JavaScript strings *)
(* ====================================================================== *)

(** A JavaScript string is a sequence of UTF-16 code units. *)
Definition jstring := list N.

(** ASCII literals of the source, read one code unit per character. *)
Fixpoint str (s : string) : jstring :=
  match s with
  | EmptyString => []
  | String c rest => N_of_ascii c :: str rest
  end.

Coercion str : string >-> jstring.

Fixpoint jstr_eqb (a b : jstring) : bool :=
  match a, b with
  | [], [] => true
  | x :: a', y :: b' => N.eqb x y && jstr_eqb a' b'
  | _, _ => false
  end.

(** WhiteSpace and LineTerminator code units of ECMAScript, the ones
    [String.prototype.trim] strips. *)
Definition is_js_whitespace (c : N) : bool :=
  match c with
  | 9 | 10 | 11 | 12 | 13 | 32 | 160 | 5760
  | 8192 | 8193 | 8194 | 8195 | 8196 | 8197 | 8198 | 8199 | 8200 | 8201 | 8202
  | 8232 | 8233 | 8239 | 8287 | 12288 | 65279 => true
  | _ => false
  end%N.

Fixpoint trim_start (s : jstring) : jstring :=
  match s with
  | c :: rest => if is_js_whitespace c then trim_start rest else s
  | [] => []
  end.

Definition trim (s : jstring) : jstring :=
  rev (trim_start (rev (trim_start s))).

(** [Number.prototype.toString] of an integer, as [Date.now().toString()]. *)
Definition decimal (z : Z) : jstring :=
  str (NilZero.string_of_int (Z.to_int z)).

(* ====================================================================== *)
(** ** JavaScript values *)
(* ====================================================================== *)

(** The values the layer handles: what [response.json()] and [JSON.parse]
    produce, plus [undefined].  A number [VNumber m e] stands for the
    binary64 nearest to the decimal [m * 10^e]; whether that is zero is
    modelled ([rounds_to_zero]), its other digits are not.  An object is its
    own properties in insertion order. *)
Inductive value : Type :=
| VUndefined
| VNull
| VBool (b : bool)
| VNumber (m e : Z)
| VString (s : jstring)
| VArray (xs : list value)
| VObject (o : list (jstring * value)).

Definition obj := list (jstring * value).

Fixpoint obj_get (o : obj) (k : jstring) : option value :=
  match o with
  | [] => None
  | (k', v) :: rest => if jstr_eqb k' k then Some v else obj_get rest k
  end.

(** Defining a property: an existing key keeps its place and takes the new
    value, a new key goes last. *)
Fixpoint obj_set (o : obj) (k : jstring) (v : value) : obj :=
  match o with
  | [] => [(k, v)]
  | (k', v') :: rest =>
      if jstr_eqb k' k then (k', v) :: rest else (k', v') :: obj_set rest k v
  end.

(** [{ ...target, ...source }]: the own properties of [source] defined one
    after the other on a copy of [target]. *)
Definition spread (target source : obj) : obj :=
  fold_left (fun acc kv => obj_set acc (fst kv) (snd kv)) source target.

(** The binary64 nearest to [m * 10^e] is zero: the decimal is at most
    [2^-1075], half of the least positive binary64 (a tie goes to zero, the
    even one). *)
Definition rounds_to_zero (m e : Z) : bool :=
  Z.abs m * 2 ^ 1075 <=? 10 ^ (- e).

Arguments rounds_to_zero : simpl never.

(** ToBoolean. *)
Definition truthy (v : value) : bool :=
  match v with
  | VUndefined | VNull => false
  | VBool b => b
  | VNumber m e => negb (rounds_to_zero m e)
  | VString s => match s with [] => false | _ => true end
  | VArray _ | VObject _ => true
  end.

Definition is_string (v : value) : bool :=
  match v with VString _ => true | _ => false end.

Definition is_array (v : value) : bool :=
  match v with VArray _ => true | _ => false end.

(** [typeof v === 'object'], which [null] satisfies too. *)
Definition typeof_object (v : value) : bool :=
  match v with VNull | VArray _ | VObject _ => true | _ => false end.

(** [v === s] for a string [s]. *)
Definition strict_eq_string (v : value) (s : jstring) : bool :=
  match v with VString s' => jstr_eqb s' s | _ => false end.

(** [a || b] and [a && b] on values. *)
Definition js_or (a b : value) : value := if truthy a then a else b.
Definition js_and (a b : value) : value := if truthy a then b else a.

(** Errors a caller can observe. *)
Inductive exn : Type :=
| Error (msg : jstring)
| TypeError
| SyntaxError
| NetworkError.

(** ToString raises a TypeError on the value.  An object is written by its
    [toString]: the one it inherits gives a string; an own property of that
    name, which in parsed JSON is never a function, hides it, and then no
    conversion is left.  An array is written by joining its elements, each
    converted in turn ([null] and [undefined] as the empty string).  The
    other values always have a text. *)
Fixpoint to_string_throws (v : value) : bool :=
  match v with
  | VObject o => existsb (fun kv => jstr_eqb (fst kv) (str "toString")) o
  | VArray xs => existsb to_string_throws xs
  | _ => false
  end.

(* ====================================================================== *)
(** ** JSON.parse *)
(* ====================================================================== *)

Module Json.

Definition is_ws (c : N) : bool :=
  match c with 32 | 9 | 10 | 13 => true | _ => false end%N.

Fixpoint skip_ws (cs : jstring) : jstring :=
  match cs with
  | c :: rest => if is_ws c then skip_ws rest else cs
  | [] => []
  end.

Definition is_digit (c : N) : bool := (48 <=? c)%N && (c <=? 57)%N.

Definition digit_val (c : N) : Z := Z.of_N c - 48.

Definition hex_val (c : N) : option N :=
  if (48 <=? c)%N && (c <=? 57)%N then Some (c - 48)%N
  else if (65 <=? c)%N && (c <=? 70)%N then Some (c - 55)%N
  else if (97 <=? c)%N && (c <=? 102)%N then Some (c - 87)%N
  else None.

(** Consumes a run of digits: the accumulated number, how many digits
    were read, and what follows. *)
Fixpoint digits (cs : jstring) (acc : Z) (n : Z) : Z * Z * jstring :=
  match cs with
  | c :: rest =>
      if is_digit c then digits rest (acc * 10 + digit_val c) (n + 1)
      else (acc, n, cs)
  | [] => (acc, n, [])
  end.

(** The characters of a string literal after its opening quote. *)
Fixpoint string_body (cs : jstring) (acc : jstring) : option (jstring * jstring) :=
  match cs with
  | [] => None
  | c :: rest =>
      if (c =? 34)%N then Some (rev acc, rest)
      else if (c =? 92)%N then
        match rest with
        | e :: rest' =>
            let simple u := string_body rest' (u :: acc) in
            match e with
            | 34 => simple 34 | 92 => simple 92 | 47 => simple 47
            | 98 => simple 8 | 102 => simple 12 | 110 => simple 10
            | 114 => simple 13 | 116 => simple 9
            | 117 =>
                match rest' with
                | h1 :: h2 :: h3 :: h4 :: rest'' =>
                    match hex_val h1, hex_val h2, hex_val h3, hex_val h4 with
                    | Some a, Some b, Some c', Some d =>
                        string_body rest'' (((a * 16 + b) * 16 + c') * 16 + d :: acc)
                    | _, _, _, _ => None
                    end
                | _ => None
                end
            | _ => None
            end%N
        | [] => None
        end
      else if (c <? 32)%N then None
      else string_body rest (c :: acc)
  end.

(** The fraction of a number, if any: the digits after the point go on
    accumulating into [ip]; at least one is required. *)
Definition fraction (ip : Z) (cs : jstring) : option (Z * Z * jstring) :=
  match cs with
  | c :: r =>
      if (c =? 46)%N then
        let '(m, nf, cs') := digits r ip 0 in
        if nf =? 0 then None else Some (m, nf, cs')
      else Some (ip, 0, cs)
  | [] => Some (ip, 0, cs)
  end.

(** The exponent of a number, if any: [e] or [E], a sign, at least one
    digit. *)
Definition exponent (cs : jstring) : option (Z * jstring) :=
  match cs with
  | c :: r =>
      if (c =? 69)%N || (c =? 101)%N then
        let minus := match r with s :: _ => (s =? 45)%N | [] => false end in
        let plus := match r with s :: _ => (s =? 43)%N | [] => false end in
        let '(ev, ne, cs') := digits (if minus || plus then tl r else r) 0 0 in
        if ne =? 0 then None else Some ((if minus then - ev else ev), cs')
      else Some (0, cs)
  | [] => Some (0, cs)
  end.

(** A number: an optional minus sign, an integer part without a leading
    zero (unless it is the single digit 0), an optional fraction, an
    optional exponent.  A literal that rounds to zero is the number zero. *)
Definition number (cs : jstring) : option (value * jstring) :=
  let minus := match cs with c :: _ => (c =? 45)%N | [] => false end in
  let cs1 := if minus then tl cs else cs in
  match cs1 with
  | [] => None
  | d :: _ =>
      if negb (is_digit d) then None else
      let '(ip, ni, cs2) := digits cs1 0 0 in
      if (d =? 48)%N && negb (ni =? 1) then None else
      match fraction ip cs2 with
      | None => None
      | Some (m, nf, cs3) =>
          match exponent cs3 with
          | None => None
          | Some (ev, cs4) =>
              Some (if rounds_to_zero m (ev - nf) then VNumber 0 0
                    else VNumber (if minus then - m else m) (ev - nf), cs4)
          end
      end
  end.

Definition literal (word : jstring) (v : value) (cs : jstring)
  : option (value * jstring) :=
  if jstr_eqb (firstn (List.length word) cs) word
  then Some (v, skipn (List.length word) cs) else None.

(** [parse_value], the elements of an array after its opening bracket and
    the members of an object after its opening brace; [fuel] bounds the
    depth of the calls. *)
Fixpoint parse_value (fuel : nat) (cs : jstring) : option (value * jstring) :=
  match fuel with
  | O => None
  | S fuel' =>
      match skip_ws cs with
      | [] => None
      | c :: rest =>
          if (c =? 123)%N then
            match skip_ws rest with
            | 125%N :: rest' => Some (VObject [], rest')
            | _ =>
                match parse_members fuel' rest [] with
                | Some (o, rest') => Some (VObject o, rest')
                | None => None
                end
            end
          else if (c =? 91)%N then
            match skip_ws rest with
            | 93%N :: rest' => Some (VArray [], rest')
            | _ =>
                match parse_elements fuel' rest [] with
                | Some (xs, rest') => Some (VArray xs, rest')
                | None => None
                end
            end
          else if (c =? 34)%N then
            match string_body rest [] with
            | Some (s, rest') => Some (VString s, rest')
            | None => None
            end
          else if (c =? 116)%N then literal "true" (VBool true) (c :: rest)
          else if (c =? 102)%N then literal "false" (VBool false) (c :: rest)
          else if (c =? 110)%N then literal "null" VNull (c :: rest)
          else number (c :: rest)
      end
  end

with parse_elements (fuel : nat) (cs : jstring) (acc : list value)
  : option (list value * jstring) :=
  match fuel with
  | O => None
  | S fuel' =>
      match parse_value fuel' cs with
      | None => None
      | Some (v, rest) =>
          match skip_ws rest with
          | 44%N :: rest' => parse_elements fuel' rest' (v :: acc)
          | 93%N :: rest' => Some (rev (v :: acc), rest')
          | _ => None
          end
      end
  end

with parse_members (fuel : nat) (cs : jstring) (acc : obj)
  : option (obj * jstring) :=
  match fuel with
  | O => None
  | S fuel' =>
      match skip_ws cs with
      | 34%N :: rest =>
          match string_body rest [] with
          | None => None
          | Some (k, rest1) =>
              match skip_ws rest1 with
              | 58%N :: rest2 =>
                  match parse_value fuel' rest2 with
                  | None => None
                  | Some (v, rest3) =>
                      match skip_ws rest3 with
                      | 44%N :: rest4 => parse_members fuel' rest4 (obj_set acc k v)
                      | 125%N :: rest4 => Some (obj_set acc k v, rest4)
                      | _ => None
                      end
                  end
              | _ => None
              end
          end
      | _ => None
      end
  end.

(** [JSON.parse text]: [None] stands for the SyntaxError it raises. *)
Definition parse (text : jstring) : option value :=
  match parse_value (2 * List.length text + 2) text with
  | Some (v, rest) =>
      match skip_ws rest with
      | [] => Some v
      | _ => None
      end
  | None => None
  end.

End Json.

Definition JSON_parse := Json.parse.

(* ====================================================================== *)
(** ** The world an operation runs in *)
(* ====================================================================== *)

Inductive method : Type := GET | POST | PUT | DELETE | HEAD.

(** What [fetch] comes back with: a rejection (network down, CORS, ...) or a
    response with its status and body text. *)
Inductive reply : Type :=
| NetworkDown
| Response (status : Z) (text : jstring).

(** Effects an operation leaves behind, oldest first. *)
Inductive event : Type :=
| EFetch (m : method) (url : jstring) (payload : option value)
| EReadMockBooks
| EReadMockReadingLists
| EAlert (msg : jstring)
| EShowSuccess (msg : jstring)
| EHandleApiError (e : exn).

(** [replies] scripts the network, one reply per [fetch] (none left: the
    network is down).  [clock] gives the successive readings of the system
    time in milliseconds, [ticks] counts the readings made.  [mockBooks] and
    [mockReadingLists] are the arrays exported by [./mockData]. *)
Record world : Type := mkWorld {
  replies : list reply;
  clock : nat -> Z;
  ticks : nat;
  mockBooks : list obj;
  mockReadingLists : list obj;
  trace : list event
}.

(** How a computation ends: with a value, with an exception thrown, or
    never, because the exception [e] was thrown inside a timer callback,
    where no promise sees it: the promise under [await] stays pending. *)
Inductive res (A : Type) : Type :=
| Ok (a : A)
| Throw (e : exn)
| Hang (e : exn).

Arguments Ok {A} a.
Arguments Throw {A} e.
Arguments Hang {A} e.

Definition M (A : Type) : Type := world -> res A * world.

Definition ret {A} (a : A) : M A := fun w => (Ok a, w).

Definition bind {A B} (m : M A) (k : A -> M B) : M B :=
  fun w =>
    match m w with
    | (Ok a, w') => k a w'
    | (Throw e, w') => (Throw e, w')
    | (Hang e, w') => (Hang e, w')
    end.

Declare Scope js_scope.
Delimit Scope js_scope with js.
Notation "x <- m ;; k" := (bind m (fun x => k))
  (at level 100, m at next level, right associativity) : js_scope.
Notation "m ;;; k" := (bind m (fun _ => k))
  (at level 100, right associativity) : js_scope.
Local Open Scope js_scope.

Definition throw {A} (e : exn) : M A := fun w => (Throw e, w).

(** [try { m } catch (error) { h error }]. *)
Definition try_catch {A} (m : M A) (h : exn -> M A) : M A :=
  fun w =>
    match m w with
    | (Throw e, w') => h e w'
    | r => r
    end.

(** [new Promise((resolve) => setTimeout(() => { body; resolve(x) }, ms))]
    under [await] or returned from an async function: the value of [body]
    once the timer fires; an exception of [body] is thrown in the timer
    callback, outside every [try] and every promise. *)
Definition set_timeout {A} (ms : Z) (body : M A) : M A :=
  fun w =>
    match body w with
    | (Throw e, w') => (Hang e, w')
    | r => r
    end.

Definition emit (ev : event) : M unit :=
  fun w => (Ok tt, mkWorld (replies w) (clock w) (ticks w) (mockBooks w)
                           (mockReadingLists w) (trace w ++ [ev])).

(** [Date.now()], also the instant of [new Date()]. *)
Definition Date_now : M Z :=
  fun w => (Ok (clock w (ticks w)),
            mkWorld (replies w) (clock w) (S (ticks w)) (mockBooks w)
                    (mockReadingLists w) (trace w)).

Definition next_reply : M reply :=
  fun w =>
    match replies w with
    | [] => (Ok NetworkDown, w)
    | r :: rest =>
        (Ok r, mkWorld rest (clock w) (ticks w) (mockBooks w)
                       (mockReadingLists w) (trace w))
    end.

(** [await fetch(url, {method, body: JSON.stringify(payload)})].  The trace
    keeps the payload as the value handed to [JSON.stringify]. *)
Definition fetch (m : method) (url : jstring) (payload : option value)
  : M (Z * jstring) :=
  emit (EFetch m url payload) ;;;
  r <- next_reply ;;
  match r with
  | NetworkDown => throw NetworkError
  | Response status text => ret (status, text)
  end.

Definition response_ok (response : Z * jstring) : bool :=
  (200 <=? fst response) && (fst response <=? 299).

(** The check every operation makes after [fetch]. *)
Definition check_ok (response : Z * jstring) : M unit :=
  if negb (response_ok response) then
    throw (Error (str "HTTP error! status: " ++ decimal (fst response)
                  ++ str ", body: " ++ snd response))
  else ret tt.

Definition JSON_parse_or_throw (text : jstring) : M value :=
  match JSON_parse text with
  | Some v => ret v
  | None => throw SyntaxError
  end.

(** [await response.json()]. *)
Definition response_json (response : Z * jstring) : M value :=
  JSON_parse_or_throw (snd response).

(** [v.k] on a value that is neither [null] nor [undefined], for the
    property names the source reads ([body], [id], [title], [name],
    [success], [book], [list], [userId], [length]): the own property of an
    object, the length of an array or a string, [undefined] otherwise. *)
Definition prop_of (v : value) (k : jstring) : value :=
  match v with
  | VObject o => match obj_get o k with Some x => x | None => VUndefined end
  | VArray xs =>
      if jstr_eqb k "length" then VNumber (Z.of_nat (List.length xs)) 0
      else VUndefined
  | VString s =>
      if jstr_eqb k "length" then VNumber (Z.of_nat (List.length s)) 0
      else VUndefined
  | _ => VUndefined
  end.

Definition nullish (v : value) : bool :=
  match v with VUndefined | VNull => true | _ => false end.

(** [v.k]: a TypeError on [null] and [undefined]. *)
Definition get_prop (v : value) (k : jstring) : M value :=
  if nullish v then throw TypeError else ret (prop_of v k).

(** A value of the response written into a template literal of a log line:
    the text is only logged, the TypeError of ToString is not. *)
Definition template (v : value) : M unit :=
  if to_string_throws v then throw TypeError else ret tt.

(** The property of a record of the mock store. *)
Definition field (o : obj) (k : jstring) : value := prop_of (VObject o) k.

Definition read_mockBooks : M (list obj) :=
  emit EReadMockBooks ;;; fun w => (Ok (mockBooks w), w).

Definition read_mockReadingLists : M (list obj) :=
  emit EReadMockReadingLists ;;; fun w => (Ok (mockReadingLists w), w).

(** [result.body && typeof result.body === 'string'] *)
Definition is_lambda_body (body : value) : bool :=
  truthy body && is_string body.

Definition string_of (v : value) : jstring :=
  match v with VString s => s | _ => [] end.

(* ====================================================================== *)
(** ** The access layer, [src/services/api.ts] *)
(* ====================================================================== *)

Section Api.

(** [Date.prototype.toISOString] of an instant in milliseconds. *)
Variable toISOString : Z -> jstring.

Definition API_BASE_URL : jstring :=
  str "https://jqvee48nk3.execute-api.us-east-1.amazonaws.com/dev".

Definition find_by_id (id : jstring) (records : list obj) : option obj :=
  find (fun r => strict_eq_string (field r "id") id) records.

Definition getBooks : M value :=
  try_catch
    (response <- fetch GET (API_BASE_URL ++ str "/books") None ;;
     check_ok response ;;;
     result <- response_json response ;;
     body <- get_prop result "body" ;;
     if is_lambda_body body then
       books <- JSON_parse_or_throw (string_of body) ;;
       count <- get_prop books "length" ;;
       template count ;;;
       ret books
     else if is_array result then
       count <- get_prop result "length" ;;
       template count ;;;
       ret result
     else throw (Error "Unexpected API response format"))
    (fun _ =>
       set_timeout 500
         (books <- read_mockBooks ;; ret (VArray (map VObject books)))).

(** In the [catch] block the title of the mock book found is logged; mock
    records are typed, their titles are strings, which always have a text. *)
Definition getBook (id : jstring) : M value :=
  try_catch
    (response <- fetch GET (API_BASE_URL ++ str "/books/" ++ id) None ;;
     if fst response =? 404 then ret VNull else
     check_ok response ;;;
     result <- response_json response ;;
     body <- get_prop result "body" ;;
     if is_lambda_body body then
       JSON_parse_or_throw (string_of body)
     else
       rid <- get_prop result "id" ;;
       if truthy rid then
         title <- get_prop result "title" ;;
         template title ;;;
         ret result
       else
         success <- get_prop result "success" ;;
         book <- get_prop result "book" ;;
         if truthy (js_and success book) then
           title <- get_prop book "title" ;;
           template title ;;;
           ret book
         else ret VNull)
    (fun _ =>
       books <- read_mockBooks ;;
       match find_by_id id books with
       | Some foundBook => ret (VObject foundBook)
       | None => ret VNull
       end).

Definition getReadingLists : M value :=
  try_catch
    (response <- fetch GET (API_BASE_URL ++ str "/reading-lists") None ;;
     check_ok response ;;;
     result <- response_json response ;;
     body <- get_prop result "body" ;;
     if is_lambda_body body then
       lists <- JSON_parse_or_throw (string_of body) ;;
       count <- get_prop lists "length" ;;
       template count ;;;
       ret lists
     else if is_array result then
       count <- get_prop result "length" ;;
       template count ;;;
       ret result
     else if truthy result && typeof_object result && negb (is_array result)
     then ret (VArray [result])
     else ret (VArray []))
    (fun _ =>
       lists <- read_mockReadingLists ;; ret (VArray (map VObject lists))).

Definition createReadingList (list : obj) : M value :=
  try_catch
    (response <- fetch POST (API_BASE_URL ++ str "/reading-lists")
                   (Some (VObject list)) ;;
     check_ok response ;;;
     result <- response_json response ;;
     body <- get_prop result "body" ;;
     if is_lambda_body body then
       listData <- JSON_parse_or_throw (string_of body) ;;
       inner <- get_prop listData "list" ;;
       ret (js_or inner listData)
     else
       success <- get_prop result "success" ;;
       inner <- get_prop result "list" ;;
       if truthy (js_and success inner) then ret inner else ret result)
    (fun _ =>
       set_timeout 500
         (id <- Date_now ;;
          createdAt <- Date_now ;;
          updatedAt <- Date_now ;;
          let newList :=
            obj_set (obj_set (obj_set (spread [] list)
              "id" (VString (decimal id)))
              "createdAt" (VString (toISOString createdAt)))
              "updatedAt" (VString (toISOString updatedAt)) in
          ret (VObject newList))).

Definition updateReadingList (id : jstring) (list : obj) : M value :=
  if negb (truthy (field list "userId")) then
    throw (Error "userId is required to update reading list")
  else
  try_catch
    (response <- fetch PUT (API_BASE_URL ++ str "/reading-lists/" ++ id)
                   (Some (VObject list)) ;;
     check_ok response ;;;
     result <- response_json response ;;
     body <- get_prop result "body" ;;
     if is_lambda_body body then
       parsed <- JSON_parse_or_throw (string_of body) ;;
       inner <- get_prop parsed "list" ;;
       ret (js_or inner parsed)
     else
       success <- get_prop result "success" ;;
       inner <- get_prop result "list" ;;
       if truthy (js_and success inner) then ret inner else ret result)
    (fun _ =>
       set_timeout 500
         (lists <- read_mockReadingLists ;;
          match find_by_id id lists with
          | None =>
              throw (Error (str "Reading list " ++ id ++ str " not found"))
          | Some existingList =>
              updatedAt <- Date_now ;;
              let updatedList :=
                obj_set (obj_set (spread (spread [] existingList) list)
                  "id" (VString id))
                  "updatedAt" (VString (toISOString updatedAt)) in
              ret (VObject updatedList)
          end)).

Definition deleteReadingList (id userId : jstring) : M value :=
  try_catch
    (response <- fetch DELETE
                   (API_BASE_URL ++ str "/reading-lists/" ++ id
                      ++ str "?userId=" ++ userId) None ;;
     check_ok response ;;;
     response_json response ;;;
     ret VUndefined)
    (fun _ => set_timeout 300 (ret VUndefined)).

Definition createBook (book : obj) : M value :=
  try_catch
    (response <- fetch POST (API_BASE_URL ++ str "/books")
                   (Some (VObject book)) ;;
     check_ok response ;;;
     result <- response_json response ;;
     body <- get_prop result "body" ;;
     if is_lambda_body body then
       bookData <- JSON_parse_or_throw (string_of body) ;;
       inner <- get_prop bookData "book" ;;
       ret (js_or inner bookData)
     else ret result)
    (fun _ =>
       set_timeout 500
         (id <- Date_now ;;
          let newBook := obj_set (spread [] book) "id" (VString (decimal id)) in
          ret (VObject newBook))).

Definition updateBook (id : jstring) (book : obj) : M value :=
  try_catch
    (response <- fetch PUT (API_BASE_URL ++ str "/books/" ++ id)
                   (Some (VObject book)) ;;
     check_ok response ;;;
     result <- response_json response ;;
     body <- get_prop result "body" ;;
     if is_lambda_body body then
       bookData <- JSON_parse_or_throw (string_of body) ;;
       inner <- get_prop bookData "book" ;;
       ret (js_or inner bookData)
     else ret result)
    (fun _ =>
       set_timeout 500
         (books <- read_mockBooks ;;
          match find_by_id id books with
          | None => throw (Error (str "Book " ++ id ++ str " not found"))
          | Some existingBook =>
              let updatedBook :=
                obj_set (spread (spread [] existingBook) book)
                  "id" (VString id) in
              ret (VObject updatedBook)
          end)).

Definition deleteBook (id : jstring) : M value :=
  try_catch
    (response <- fetch DELETE (API_BASE_URL ++ str "/books/" ++ id) None ;;
     check_ok response ;;;
     response_json response ;;;
     ret VUndefined)
    (fun _ => set_timeout 300 (ret VUndefined)).

Definition mockRecommendations : value :=
  VArray
    [ VObject
        [ (str "id", VString "1"); (str "bookId", VString "1");
          (str "reason", VString "Based on your interest in philosophical fiction, this book explores themes of choice and regret.");
          (str "confidence", VNumber 92 (-2)) ];
      VObject
        [ (str "id", VString "2"); (str "bookId", VString "2");
          (str "reason", VString "If you enjoy science-based thrillers, this space adventure combines humor with hard science.");
          (str "confidence", VNumber 88 (-2)) ] ].

Definition getRecommendations (query : option jstring) : M value :=
  try_catch
    (set_timeout 1000 (ret mockRecommendations))
    (fun _ => ret (VArray [])).

(** The review [getReviews] makes up when its request fails. *)
Definition mockReviews (bookId : jstring) : value :=
  VArray
    [ VObject
        [ (str "id", VString "1"); (str "bookId", VString bookId);
          (str "userId", VString "1"); (str "rating", VNumber 5 0);
          (str "comment", VString "Absolutely loved this book! A must-read.");
          (str "createdAt", VString "2024-11-01T10:00:00Z") ] ].

Definition getReviews (bookId : jstring) : M value :=
  try_catch
    (response <- fetch GET
                   (API_BASE_URL ++ str "/books/" ++ bookId ++ str "/reviews")
                   None ;;
     check_ok response ;;;
     result <- response_json response ;;
     body <- get_prop result "body" ;;
     if is_lambda_body body then JSON_parse_or_throw (string_of body)
     else if is_array result then ret result
     else ret (VArray []))
    (fun _ =>
       set_timeout 500 (ret (mockReviews bookId))).

Definition createReview (review : obj) : M value :=
  try_catch
    (response <- fetch POST (API_BASE_URL ++ str "/reviews")
                   (Some (VObject review)) ;;
     check_ok response ;;;
     result <- response_json response ;;
     body <- get_prop result "body" ;;
     if is_lambda_body body then JSON_parse_or_throw (string_of body)
     else ret result)
    (fun _ =>
       set_timeout 500
         (id <- Date_now ;;
          createdAt <- Date_now ;;
          let newReview :=
            obj_set (obj_set (spread [] review)
              "id" (VString (decimal id)))
              "createdAt" (VString (toISOString createdAt)) in
          ret (VObject newReview))).

Definition testApiConnection : M value :=
  try_catch
    (response <- fetch GET (API_BASE_URL ++ str "/books") None ;;
     ret (VBool (response_ok response)))
    (fun _ => ret (VBool false)).

Definition checkReadingListEndpoints : M value :=
  get <- try_catch
           (getResponse <- fetch HEAD (API_BASE_URL ++ str "/reading-lists")
                             None ;;
            ret (response_ok getResponse))
           (fun _ => ret false) ;;
  ret (VObject [ (str "get", VBool get); (str "post", VBool false);
                 (str "put", VBool false); (str "delete", VBool false) ]).

(** A call of the layer, and a sequence of calls made one after the other;
    a call whose promise stays pending does not stop the later ones. *)
Inductive call : Type :=
| CallGetBooks
| CallGetBook (id : jstring)
| CallGetReadingLists
| CallCreateReadingList (list : obj)
| CallUpdateReadingList (id : jstring) (list : obj)
| CallDeleteReadingList (id userId : jstring)
| CallCreateBook (book : obj)
| CallUpdateBook (id : jstring) (book : obj)
| CallDeleteBook (id : jstring)
| CallGetRecommendations (query : option jstring)
| CallGetReviews (bookId : jstring)
| CallCreateReview (review : obj)
| CallTestApiConnection
| CallCheckReadingListEndpoints.

Definition run_call (c : call) : M value :=
  match c with
  | CallGetBooks => getBooks
  | CallGetBook id => getBook id
  | CallGetReadingLists => getReadingLists
  | CallCreateReadingList list => createReadingList list
  | CallUpdateReadingList id list => updateReadingList id list
  | CallDeleteReadingList id userId => deleteReadingList id userId
  | CallCreateBook book => createBook book
  | CallUpdateBook id book => updateBook id book
  | CallDeleteBook id => deleteBook id
  | CallGetRecommendations query => getRecommendations query
  | CallGetReviews bookId => getReviews bookId
  | CallCreateReview review => createReview review
  | CallTestApiConnection => testApiConnection
  | CallCheckReadingListEndpoints => checkReadingListEndpoints
  end.

Fixpoint run_calls (cs : list call) (w : world) : list (res value) * world :=
  match cs with
  | [] => ([], w)
  | c :: rest =>
      let '(r, w1) := run_call c w in
      let '(rs, w2) := run_calls rest w1 in
      (r :: rs, w2)
  end.

End Api.

(* ====================================================================== *)
(** ** The reading-list page, [ReadingLists] *)
(* ====================================================================== *)

Section Page.

Variable toISOString : Z -> jstring.

(** The component's state, one field per [useState]. *)
Record page : Type := mkPage {
  lists : list value;
  isLoading : bool;
  error : option jstring;
  isModalOpen : bool;
  isEditModalOpen : bool;
  editingList : option value;
  newListName : jstring;
  newListDescription : jstring
}.

Definition setLists (p : page) (x : list value) : page :=
  mkPage x (isLoading p) (error p) (isModalOpen p) (isEditModalOpen p)
         (editingList p) (newListName p) (newListDescription p).

Definition setIsLoading (p : page) (x : bool) : page :=
  mkPage (lists p) x (error p) (isModalOpen p) (isEditModalOpen p)
         (editingList p) (newListName p) (newListDescription p).

Definition setError (p : page) (x : option jstring) : page :=
  mkPage (lists p) (isLoading p) x (isModalOpen p) (isEditModalOpen p)
         (editingList p) (newListName p) (newListDescription p).

Definition setIsModalOpen (p : page) (x : bool) : page :=
  mkPage (lists p) (isLoading p) (error p) x (isEditModalOpen p)
         (editingList p) (newListName p) (newListDescription p).

Definition setNewListName (p : page) (x : jstring) : page :=
  mkPage (lists p) (isLoading p) (error p) (isModalOpen p) (isEditModalOpen p)
         (editingList p) x (newListDescription p).

Definition setNewListDescription (p : page) (x : jstring) : page :=
  mkPage (lists p) (isLoading p) (error p) (isModalOpen p) (isEditModalOpen p)
         (editingList p) (newListName p) x.

(** [loadLists], with its [finally] run on both ways out of the [try]. *)
Definition loadLists (p : page) : M page :=
  let p := setError (setIsLoading p true) None in
  p' <- try_catch
          (data <- getReadingLists ;;
           if negb (truthy data) then
             ret (setError (setLists p []) (Some (str "No data received from server")))
           else
             match data with
             | VArray xs => ret (setLists p xs)
             | _ =>
                 ret (setError (setLists p [])
                        (Some (str "Invalid data format from server")))
             end)
          (fun _ =>
             ret (setLists
                    (setError p
                       (Some (str "Failed to load reading lists. Please try again.")))
                    [])) ;;
  ret (setIsLoading p' false).

(** [handleCreateList].  The [lists] it prepends to are the ones of the
    render the handler was created in; the reload it starts at the end,
    without awaiting it, is run to its end here. *)
Definition handleCreateList (p : page) : M page :=
  if negb (truthy (VString (trim (newListName p)))) then
    emit (EAlert "Please enter a list name") ;;;
    ret p
  else
    try_catch
      (newList <- createReadingList toISOString
                    [ (str "userId", VString "test-user-123");
                      (str "name", VString (newListName p));
                      (str "description", VString (newListDescription p));
                      (str "bookIds", VArray []) ] ;;
       let p1 := setLists p (newList :: lists p) in
       let p2 := setIsModalOpen p1 false in
       let p3 := setNewListName p2 [] in
       let p4 := setNewListDescription p3 [] in
       emit (EShowSuccess "Reading list created successfully!") ;;;
       loadLists p4)
      (fun error => emit (EHandleApiError error) ;;; ret p).

End Page.

(* ====================================================================== *)
(** ** Notions the statements use *)
(* ====================================================================== *)

(** The world once a request has gone out and its reply has been taken. *)
Definition after_fetch (w : world) (m : method) (url : jstring)
    (payload : option value) : world :=
  mkWorld (tl (replies w)) (clock w) (ticks w) (mockBooks w)
          (mockReadingLists w) (trace w ++ [EFetch m url payload]).

(** The next request fails: the network is down or the status is not 2xx. *)
Definition request_fails (w : world) : bool :=
  match replies w with
  | [] | NetworkDown :: _ => true
  | Response status _ :: _ => negb ((200 <=? status) && (status <=? 299))
  end.

(** The next request is answered with a 2xx status and the body [text]. *)
Definition answered (w : world) (text : jstring) : Prop :=
  exists status rest,
    replies w = Response status text :: rest /\
    (200 <=? status) && (status <=? 299) = true.

(** An association list that is an object: no key twice. *)
Fixpoint distinct_keys (o : obj) : bool :=
  match o with
  | [] => true
  | (k, _) :: rest =>
      negb (existsb (fun kv => jstr_eqb (fst kv) k) rest) && distinct_keys rest
  end.

(** What a run may change: it takes replies, reads the clock and adds to the
    trace; the mock store and the clock itself stay. *)
Definition evolves (w w' : world) : Prop :=
  mockBooks w' = mockBooks w /\
  mockReadingLists w' = mockReadingLists w /\
  clock w' = clock w /\
  exists evs, trace w' = trace w ++ evs.

Definition steady {A} (m : M A) : Prop := forall w, evolves w (snd (m w)).

(** The promise of [m] is never rejected / never left pending / always
    resolved. *)
Definition no_throw {A} (m : M A) : Prop := forall w e, fst (m w) <> Throw e.
Definition no_hang {A} (m : M A) : Prop := forall w e, fst (m w) <> Hang e.
Definition resolves {A} (m : M A) : Prop := forall w, exists a, fst (m w) = Ok a.

(** The events a run added to the trace. *)
Definition new_events (w w' : world) : list event :=
  skipn (List.length (trace w)) (trace w').

Definition is_update (c : call) : bool :=
  match c with
  | CallUpdateReadingList _ _ | CallUpdateBook _ _ => true
  | _ => false
  end.

(** The world with one more event in its trace. *)
Definition logged (w : world) (ev : event) : world :=
  mkWorld (replies w) (clock w) (ticks w) (mockBooks w) (mockReadingLists w)
          (trace w ++ [ev]).

(** The world after [n] readings of the clock. *)
Definition ticked (w : world) (n : nat) : world :=
  mkWorld (replies w) (clock w) (n + ticks w) (mockBooks w)
          (mockReadingLists w) (trace w).

(** The error a failing request leaves the [try] block with. *)
Definition request_error (w : world) : exn :=
  match replies w with
  | Response status text :: _ =>
      Error (str "HTTP error! status: " ++ decimal status
             ++ str ", body: " ++ text)
  | _ => NetworkError
  end.

(** The next request is answered with the status 404. *)
Definition status_404 (w : world) : bool :=
  match replies w with
  | Response status _ :: _ => status =? 404
  | _ => false
  end.

(** [mockBooks.find(b => b.id === id)] as the value the fallbacks see. *)
Definition found (id : jstring) (records : list obj) : value :=
  match find_by_id id records with
  | Some r => VObject r
  | None => VNull
  end.

(** A boolean, a number or a string. *)
Definition is_primitive (v : value) : bool :=
  match v with
  | VBool _ | VNumber _ _ | VString _ => true
  | _ => false
  end.

(** Sample data. *)
Module Sample.

Definition quote : jstring := [34%N].

Definition iso (z : Z) : jstring := str "T" ++ decimal z.

Definition book1 : obj :=
  [ (str "id", VString "1"); (str "title", VString "The Midnight Library");
    (str "author", VString "Matt Haig") ].

Definition list1 : obj :=
  [ (str "id", VString "1"); (str "userId", VString "1");
    (str "name", VString "Summer Reading"); (str "bookIds", VArray []) ].

Definition world_of (rs : list reply) : world :=
  mkWorld rs (fun _ => 1700000000000) 0 [book1] [list1] [].

Definition quoted (s : jstring) : jstring := quote ++ s ++ quote.

(** A quote inside a JSON string literal. *)
Definition esc : jstring := [92%N; 34%N].

(** [{"statusCode":200,"headers":{},"body":"<inner>"}] *)
Definition envelope (inner : jstring) : jstring :=
  str "{" ++ quoted (str "statusCode") ++ str ":200,"
    ++ quoted (str "headers") ++ str ":{},"
    ++ quoted (str "body") ++ str ":" ++ quoted inner ++ str "}".

(** [[{"id":"7"}]], plain and as it stands inside a string literal. *)
Definition books_text : jstring :=
  str "[{" ++ quoted (str "id") ++ str ":" ++ quoted (str "7") ++ str "}]".

Definition books_text_escaped : jstring :=
  str "[{" ++ esc ++ str "id" ++ esc ++ str ":" ++ esc ++ str "7" ++ esc
    ++ str "}]".

Definition books_payload : value :=
  VArray [VObject [(str "id", VString (str "7"))]].

(** [{"success":true,"books":[{"id":"7"}]}] *)
Definition success_books_text : jstring :=
  str "{" ++ quoted (str "success") ++ str ":true,"
    ++ quoted (str "books") ++ str ":" ++ books_text ++ str "}".

(** [{"id":"2","title":"Project Hail Mary"}] *)
Definition book2 : obj :=
  [ (str "id", VString (str "2")); (str "title", VString (str "Project Hail Mary")) ].

Definition book2_text : jstring :=
  str "{" ++ quoted (str "id") ++ str ":" ++ quoted (str "2") ++ str ","
    ++ quoted (str "title") ++ str ":" ++ quoted (str "Project Hail Mary")
    ++ str "}".

Definition page0 (name : jstring) : page :=
  mkPage [VObject list1] false None true false None name (str "notes").

End Sample.

(* ====================================================================== *)
(** ** The rest of the reading-list page *)
(* ====================================================================== *)

Definition setEditingList (p : page) (x : option value) : page :=
  mkPage (lists p) (isLoading p) (error p) (isModalOpen p) (isEditModalOpen p)
         x (newListName p) (newListDescription p).

Definition setIsEditModalOpen (p : page) (x : bool) : page :=
  mkPage (lists p) (isLoading p) (error p) (isModalOpen p) x
         (editingList p) (newListName p) (newListDescription p).

(** [lists.find((list) => list.id === listId)]: the elements are visited in
    order, and the read of [list.id] raises on a [null] element. *)
Fixpoint find_list (listId : jstring) (ls : list value) : M (option value) :=
  match ls with
  | [] => ret None
  | l :: rest =>
      lid <- get_prop l "id" ;;
      if strict_eq_string lid listId then ret (Some l)
      else find_list listId rest
  end.

(** [lists.filter((list) => list.id !== listId)] *)
Fixpoint without_list (listId : jstring) (ls : list value) : M (list value) :=
  match ls with
  | [] => ret []
  | l :: rest =>
      lid <- get_prop l "id" ;;
      kept <- without_list listId rest ;;
      ret (if strict_eq_string lid listId then kept else l :: kept)
  end.

(** [handleEditList], a synchronous handler. *)
Definition handleEditList (listId : jstring) (p : page) : M page :=
  listToEdit <- find_list listId (lists p) ;;
  match listToEdit with
  | None => ret p
  | Some l =>
      if negb (truthy l) then ret p
      else ret (setIsEditModalOpen (setEditingList p (Some l)) true)
  end.

Section DeleteList.

(** ToString of the runtime, as a template literal applies it to a value
    that is not known to be a string; [None] stands for the TypeError it
    raises on some objects. *)
Variable ToString : value -> option jstring.

Definition to_string (v : value) : M jstring :=
  match ToString v with
  | Some s => ret s
  | None => throw TypeError
  end.

(** [handleDeleteList].  [confirmed] is the user's answer to the [confirm]
    dialog.  The owner handed to [deleteReadingList] is written into its URL
    by a template literal, before the request.  As in [handleCreateList],
    the reload started at the end is run to its end here. *)
Definition handleDeleteList (confirmed : bool) (listId : jstring) (p : page)
  : M page :=
  if negb confirmed then ret p
  else
    try_catch
      (listToDelete <- find_list listId (lists p) ;;
       match listToDelete with
       | None => throw (Error "List not found")
       | Some l =>
           if negb (truthy l) then throw (Error "List not found")
           else
             userId <- get_prop l "userId" ;;
             owner <- to_string (js_or userId (VString "test-user-123")) ;;
             deleteReadingList listId owner ;;;
             kept <- without_list listId (lists p) ;;
             emit (EShowSuccess "Reading list deleted successfully!") ;;;
             loadLists (setLists p kept)
       end)
      (fun error => emit (EHandleApiError error) ;;; ret p).

End DeleteList.

(* ====================================================================== *)
(** ** The book page, [BookDetail] *)
(* ====================================================================== *)

Module BookDetail.

(** The component's state, one field per [useState]. *)
Record state : Type := mkState {
  book : option value;
  isLoading : bool;
  error : option jstring
}.

Definition setBook (s : state) (x : option value) : state :=
  mkState x (isLoading s) (error s).

Definition setIsLoading (s : state) (x : bool) : state :=
  mkState (book s) x (error s).

Definition setError (s : state) (x : option jstring) : state :=
  mkState (book s) (isLoading s) x.

(** [`Book with ID "${bookId}" not found`] *)
Definition not_found_message (bookId : jstring) : jstring :=
  str "Book with ID " ++ [34%N] ++ bookId ++ [34%N] ++ str " not found".

Section Runtime.

(** The [message] the engine gives the errors it raises itself. *)
Variable runtime_message : exn -> jstring.

Definition message_of (e : exn) : jstring :=
  match e with
  | Error msg => msg
  | _ => runtime_message e
  end.

(** [loadBook]: the book of the layer when there is one, else the mock book
    of that id, read from [mockBooks] by the page itself, else an error. *)
Definition loadBook (bookId : jstring) (s : state) : M state :=
  let s := setError (setIsLoading s true) None in
  s' <- try_catch
          (data <- getBook bookId ;;
           if truthy data then ret (setBook s (Some data))
           else
             books <- read_mockBooks ;;
             match find_by_id bookId books with
             | Some mockBook => ret (setBook s (Some (VObject mockBook)))
             | None => ret (setError s (Some (not_found_message bookId)))
             end)
          (fun error =>
             emit (EHandleApiError error) ;;;
             ret (setError s
                    (Some (str "Failed to load book: " ++ message_of error)))) ;;
  ret (setIsLoading s' false).

(** The effect run on mount and on a change of the [id] of the route;
    [None] is a route without [id]. *)
Definition onMount (id : option jstring) (s : state) : M state :=
  match id with
  | Some (c :: rest) => loadBook (c :: rest) s
  | _ => ret (setIsLoading (setError s (Some (str "No book ID provided"))) false)
  end.

End Runtime.

End BookDetail.

(* ====================================================================== *)
(** ** More notions the statements use *)
(* ====================================================================== *)

(** A computation that leaves the world as it is. *)
Definition silent {A} (m : M A) : Prop := forall w, snd (m w) = w.

(** A computation that takes no reply and adds nothing to the trace. *)
Definition quiet {A} (m : M A) : Prop :=
  forall w, replies (snd (m w)) = replies w /\ trace (snd (m w)) = trace w.

(** What a fallback may leave in the trace: nothing, or one read of the
    mock store. *)
Definition fallback_events (evs : list event) : Prop :=
  evs = [] \/ evs = [EReadMockBooks] \/ evs = [EReadMockReadingLists].

Definition reads_once {A} (m : M A) : Prop :=
  forall w,
    replies (snd (m w)) = replies w /\
    exists evs, trace (snd (m w)) = trace w ++ evs /\ fallback_events evs.

(** At most one request, sent before anything else, then at most one read
    of the mock store. *)
Definition one_request {A} (m : M A) : Prop :=
  forall w,
    (replies (snd (m w)) = replies w /\ trace (snd (m w)) = trace w) \/
    (replies (snd (m w)) = tl (replies w) /\
     exists method url payload evs,
       trace (snd (m w)) = trace w ++ EFetch method url payload :: evs /\
       fallback_events evs).

(** The three creations of the layer, and the properties their fallbacks
    set themselves. *)
Inductive creation : Type := NewReadingList | NewBook | NewReview.

Definition create (toISOString : Z -> jstring) (kind : creation)
    (record : obj) : M value :=
  match kind with
  | NewReadingList => createReadingList toISOString record
  | NewBook => createBook record
  | NewReview => createReview toISOString record
  end.

Definition stamped (kind : creation) : list jstring :=
  match kind with
  | NewReadingList => [str "id"; str "createdAt"; str "updatedAt"]
  | NewBook => [str "id"]
  | NewReview => [str "id"; str "createdAt"]
  end.

(** [list.id === listId] on an element that is neither [null] nor
    [undefined]. *)
Definition has_id (listId : jstring) (l : value) : bool :=
  strict_eq_string (prop_of l (str "id")) listId.

(** The world when the reply about to come is lost on the way. *)
Definition network_down_now (w : world) : world :=
  mkWorld (NetworkDown :: tl (replies w)) (clock w) (ticks w) (mockBooks w)
          (mockReadingLists w) (trace w).

(** The operations that read the body of the response. *)
Definition reads_body (c : call) : bool :=
  match c with
  | CallGetRecommendations _ | CallTestApiConnection
  | CallCheckReadingListEndpoints => false
  | _ => true
  end.

(** From the reply about to come on, every request fails. *)
Definition requests_fail (w : world) : bool :=
  forallb (fun r => match r with
                    | NetworkDown => true
                    | Response status _ =>
                        negb ((200 <=? status) && (status <=? 299))
                    end) (replies w).

(** More sample data. *)
Module Fixture.

(** ToString on the strings. *)
Definition to_string_of_strings (v : value) : option jstring :=
  match v with
  | VString s => Some s
  | _ => None
  end.

Definition message (e : exn) : jstring :=
  match e with
  | TypeError => str "TypeError"
  | SyntaxError => str "SyntaxError"
  | _ => str "Failed to fetch"
  end.

Definition detail0 : BookDetail.state := BookDetail.mkState None true None.

(** A list that its server gave no owner. *)
Definition list2 : obj :=
  [ (str "id", VString "2"); (str "name", VString "Classics") ].

Definition page_of (ls : list value) : page :=
  mkPage ls false None false false None [] [].

(** [{"success":true,"list":{"id":"2","name":"Classics"}}] *)
Definition success_list_text : jstring :=
  str "{" ++ Sample.quoted (str "success") ++ str ":true,"
    ++ Sample.quoted (str "list") ++ str ":{"
    ++ Sample.quoted (str "id") ++ str ":" ++ Sample.quoted (str "2") ++ str ","
    ++ Sample.quoted (str "name") ++ str ":" ++ Sample.quoted (str "Classics")
    ++ str "}}".

End Fixture.

(** Bodies at the edges of the conversions. *)
Module Edge.

(** [{"id":1e-400}]: an id that rounds to zero. *)
Definition tiny_id_text : jstring :=
  str "{" ++ Sample.quoted (str "id") ++ str ":1e-400}".

(** [{"length":{"toString":1}}], as it stands inside a string literal: a
    count that has no text. *)
Definition untextable_count_escaped : jstring :=
  str "{" ++ Sample.esc ++ str "length" ++ Sample.esc ++ str ":{"
    ++ Sample.esc ++ str "toString" ++ Sample.esc ++ str ":1}}".

(** [{"id":"5","title":[1,{"toString":null}]}]: a title that has no text. *)
Definition untextable_title_text : jstring :=
  str "{" ++ Sample.quoted (str "id") ++ str ":" ++ Sample.quoted (str "5")
    ++ str "," ++ Sample.quoted (str "title") ++ str ":[1,{"
    ++ Sample.quoted (str "toString") ++ str ":null}]}".

(** [{"success":1e-400,"list":{"id":"2"}}] *)
Definition tiny_success_text : jstring :=
  str "{" ++ Sample.quoted (str "success") ++ str ":1e-400,"
    ++ Sample.quoted (str "list") ++ str ":{" ++ Sample.quoted (str "id")
    ++ str ":" ++ Sample.quoted (str "2") ++ str "}}".

End Edge.

(* ====================================================================== *)
(** ** Strings and objects *)
(* ====================================================================== *)

Lemma jstr_eqb_refl (a : jstring) : jstr_eqb a a = true.
Proof.
  induction a as [|x a IH]; simpl; [reflexivity|].
  now rewrite N.eqb_refl, IH.
Qed.

Lemma jstr_eqb_eq (a b : jstring) : jstr_eqb a b = true <-> a = b.
Proof.
  split; [|intros ->; apply jstr_eqb_refl].
  revert b; induction a as [|x a IH]; intros [|y b]; simpl; try discriminate; auto.
  intros H. apply andb_true_iff in H as [Hx Hr].
  apply N.eqb_eq in Hx. apply IH in Hr. congruence.
Qed.

Lemma jstr_eqb_neq (a b : jstring) : jstr_eqb a b = false <-> a <> b.
Proof.
  rewrite <- jstr_eqb_eq. destruct (jstr_eqb a b); split; congruence.
Qed.

Lemma jstr_eqb_sym (a b : jstring) : jstr_eqb a b = jstr_eqb b a.
Proof.
  destruct (jstr_eqb a b) eqn:E.
  - apply jstr_eqb_eq in E. subst. symmetry. apply jstr_eqb_refl.
  - symmetry. apply jstr_eqb_neq. apply jstr_eqb_neq in E. congruence.
Qed.

Lemma trim_start_whitespace (s : jstring) :
  forallb is_js_whitespace s = true -> trim_start s = [].
Proof.
  induction s as [|c s IH]; simpl; [reflexivity|].
  intros H. apply andb_true_iff in H as [Hc Hs]. now rewrite Hc, IH.
Qed.

Lemma trim_whitespace (s : jstring) :
  forallb is_js_whitespace s = true -> trim s = [].
Proof.
  intros H. unfold trim. now rewrite (trim_start_whitespace s H).
Qed.

Lemma obj_get_set_same (o : obj) (k : jstring) (v : value) :
  obj_get (obj_set o k v) k = Some v.
Proof.
  induction o as [|[k' v'] o IH]; simpl.
  - now rewrite jstr_eqb_refl.
  - destruct (jstr_eqb k' k) eqn:E; simpl; rewrite E; auto.
Qed.

Lemma obj_get_set_other (o : obj) (k k' : jstring) (v : value) :
  k' <> k -> obj_get (obj_set o k v) k' = obj_get o k'.
Proof.
  intros Hne. induction o as [|[k0 v0] o IH]; simpl.
  - assert (jstr_eqb k k' = false) as -> by (apply jstr_eqb_neq; congruence).
    reflexivity.
  - destruct (jstr_eqb k0 k) eqn:E; simpl.
    + apply jstr_eqb_eq in E. subst k0.
      assert (jstr_eqb k k' = false) as -> by (apply jstr_eqb_neq; congruence).
      reflexivity.
    + destruct (jstr_eqb k0 k'); auto.
Qed.

(** A key of [{ ...target, ...source }] has the value of its last
    occurrence in [source], and that of [target] when [source] lacks it. *)
Lemma obj_get_spread (source target : obj) (k : jstring) :
  obj_get (spread target source) k =
  match obj_get (rev source) k with
  | Some v => Some v
  | None => obj_get target k
  end.
Proof.
  unfold spread. rewrite <- fold_left_rev_right.
  induction (rev source) as [|[k' v'] s IH]; simpl; [reflexivity|].
  destruct (jstr_eqb k' k) eqn:E.
  - apply jstr_eqb_eq in E. subst. apply obj_get_set_same.
  - rewrite obj_get_set_other by (apply jstr_eqb_neq; now rewrite jstr_eqb_sym).
    exact IH.
Qed.

Lemma obj_get_none_existsb (o : obj) (k : jstring) :
  existsb (fun kv => jstr_eqb (fst kv) k) o = false -> obj_get o k = None.
Proof.
  induction o as [|[k' v'] o IH]; simpl; [reflexivity|].
  intros H. apply orb_false_iff in H as [H1 H2]. rewrite H1. auto.
Qed.

Lemma obj_get_app (a b : obj) (k : jstring) :
  obj_get (a ++ b) k =
  match obj_get a k with Some v => Some v | None => obj_get b k end.
Proof.
  induction a as [|[k' v'] a IH]; simpl; [reflexivity|].
  destruct (jstr_eqb k' k); auto.
Qed.

(** In an object, the first and the last occurrence of a key are the same. *)
Lemma obj_get_rev (o : obj) (k : jstring) :
  distinct_keys o = true -> obj_get (rev o) k = obj_get o k.
Proof.
  induction o as [|[k' v'] o IH]; simpl; [reflexivity|].
  intros H. apply andb_true_iff in H as [Hfresh Hrest].
  apply negb_true_iff in Hfresh.
  rewrite obj_get_app, (IH Hrest). simpl.
  destruct (jstr_eqb k' k) eqn:E.
  - apply jstr_eqb_eq in E. subst k'.
    now rewrite (obj_get_none_existsb o k Hfresh).
  - now destruct (obj_get o k).
Qed.

Arguments find_by_id : simpl never.
Arguments API_BASE_URL : simpl never.
Arguments decimal : simpl never.
Arguments str : simpl never.

(* ====================================================================== *)
(** ** Running the primitives *)
(* ====================================================================== *)

Lemma fetch_reply (m : method) (url : jstring) (payload : option value) (w : world) :
  fetch m url payload w =
  match replies w with
  | Response status text :: _ => (Ok (status, text), after_fetch w m url payload)
  | _ => (Throw NetworkError, after_fetch w m url payload)
  end.
Proof.
  unfold fetch, bind, emit, next_reply, after_fetch, throw, ret; simpl.
  destruct (replies w) as [|[|status text] rest]; reflexivity.
Qed.

Lemma new_events_app (w w' : world) (evs : list event) :
  trace w' = trace w ++ evs -> new_events w w' = evs.
Proof.
  intros H. unfold new_events. rewrite H.
  rewrite skipn_app, skipn_all, Nat.sub_diag. reflexivity.
Qed.

Lemma evolves_refl (w : world) : evolves w w.
Proof.
  repeat split. exists []. now rewrite app_nil_r.
Qed.

Lemma evolves_trans (w1 w2 w3 : world) :
  evolves w1 w2 -> evolves w2 w3 -> evolves w1 w3.
Proof.
  intros (B1 & L1 & C1 & e1 & T1) (B2 & L2 & C2 & e2 & T2).
  repeat split; try congruence.
  exists (e1 ++ e2). rewrite T2, T1. now rewrite app_assoc.
Qed.

Lemma evolves_after_fetch (w : world) m url payload :
  evolves w (after_fetch w m url payload).
Proof.
  repeat split. now exists [EFetch m url payload].
Qed.

Create HintDb steady discriminated.

Lemma steady_ret {A} (a : A) : steady (ret a).
Proof. intros w. apply evolves_refl. Qed.

Lemma steady_throw {A} (e : exn) : steady (@throw A e).
Proof. intros w. apply evolves_refl. Qed.

Lemma steady_bind {A B} (m : M A) (k : A -> M B) :
  steady m -> (forall a, steady (k a)) -> steady (bind m k).
Proof.
  intros Hm Hk w. unfold bind. specialize (Hm w).
  destruct (m w) as [[a|e|e] w1]; simpl in *; auto.
  eapply evolves_trans; [exact Hm | apply Hk].
Qed.

Lemma steady_try_catch {A} (m : M A) (h : exn -> M A) :
  steady m -> (forall e, steady (h e)) -> steady (try_catch m h).
Proof.
  intros Hm Hh w. unfold try_catch. specialize (Hm w).
  destruct (m w) as [[a|e|e] w1]; simpl in *; auto.
  eapply evolves_trans; [exact Hm | apply Hh].
Qed.

Lemma steady_set_timeout {A} (ms : Z) (body : M A) :
  steady body -> steady (set_timeout ms body).
Proof.
  intros Hb w. unfold set_timeout. specialize (Hb w).
  destruct (body w) as [[a|e|e] w1]; simpl in *; auto.
Qed.

Lemma steady_emit (ev : event) : steady (emit ev).
Proof. intros w. repeat split. now exists [ev]. Qed.

Lemma steady_Date_now : steady Date_now.
Proof. intros w. repeat split. exists []. simpl. now rewrite app_nil_r. Qed.

Lemma steady_fetch m url payload : steady (fetch m url payload).
Proof.
  intros w. rewrite fetch_reply.
  destruct (replies w) as [|[|status text] rest]; apply evolves_after_fetch.
Qed.

Lemma steady_check_ok response : steady (check_ok response).
Proof.
  unfold check_ok. destruct (negb (response_ok response));
    [apply steady_throw | apply steady_ret].
Qed.

Lemma steady_JSON_parse_or_throw text : steady (JSON_parse_or_throw text).
Proof.
  unfold JSON_parse_or_throw. destruct (JSON_parse text);
    [apply steady_ret | apply steady_throw].
Qed.

Lemma steady_response_json response : steady (response_json response).
Proof. apply steady_JSON_parse_or_throw. Qed.

Lemma steady_get_prop v k : steady (get_prop v k).
Proof.
  unfold get_prop. destruct (nullish v); [apply steady_throw | apply steady_ret].
Qed.

Lemma steady_template v : steady (template v).
Proof.
  unfold template. destruct (to_string_throws v);
    [apply steady_throw | apply steady_ret].
Qed.

Lemma steady_read_mockBooks : steady read_mockBooks.
Proof.
  unfold read_mockBooks. apply steady_bind; [apply steady_emit|].
  intros _ w. apply evolves_refl.
Qed.

Lemma steady_read_mockReadingLists : steady read_mockReadingLists.
Proof.
  unfold read_mockReadingLists. apply steady_bind; [apply steady_emit|].
  intros _ w. apply evolves_refl.
Qed.

#[export] Hint Resolve steady_ret steady_throw steady_emit steady_Date_now
  steady_fetch steady_check_ok steady_JSON_parse_or_throw steady_response_json
  steady_get_prop steady_read_mockBooks steady_read_mockReadingLists : steady.

#[export] Hint Resolve steady_template : steady.

(** Walks through a computation built from the primitives. *)
Ltac steady_step :=
  match goal with
  | |- steady (bind _ _) => apply steady_bind; [|intros]
  | |- steady (try_catch _ _) => apply steady_try_catch; [|intros]
  | |- steady (set_timeout _ _) => apply steady_set_timeout
  | |- steady (if ?c then _ else _) => destruct c
  | |- steady (match ?x with _ => _ end) => destruct x
  | |- steady (let _ := _ in _) => cbv zeta
  | |- steady _ => solve [auto with steady]
  end.

Ltac steady_walk := repeat steady_step.

Section ApiSteady.

Variable toISOString : Z -> jstring.

Lemma steady_run_call (c : call) : steady (run_call toISOString c).
Proof.
  destruct c; simpl;
    unfold getBooks, getBook, getReadingLists, createReadingList,
      updateReadingList, deleteReadingList, createBook, updateBook,
      deleteBook, getRecommendations, getReviews, createReview,
      testApiConnection, checkReadingListEndpoints;
    steady_walk.
Qed.

End ApiSteady.

(* ====================================================================== *)
(** ** The fallback path *)
(* ====================================================================== *)

(** A failing request leaves the [try] block at once: by the rejection of
    [fetch], or by the error thrown on a status that is not 2xx. *)
Lemma failing_request {A} m url payload (k : Z * jstring -> M A) (w : world) :
  request_fails w = true ->
  bind (fetch m url payload)
       (fun response => bind (check_ok response) (fun _ => k response)) w
  = (Throw (request_error w), after_fetch w m url payload).
Proof.
  unfold request_fails, request_error, bind. rewrite fetch_reply.
  destruct (replies w) as [|[|status text] rest]; intros H; try reflexivity.
  unfold check_ok, response_ok. cbn [fst snd]. now rewrite H.
Qed.

Lemma getBooks_fallback (w : world) :
  request_fails w = true ->
  getBooks w =
  (Ok (VArray (map VObject (mockBooks w))),
   logged (after_fetch w GET (API_BASE_URL ++ str "/books") None) EReadMockBooks).
Proof.
  intros H. unfold getBooks, try_catch.
  rewrite failing_request by assumption. reflexivity.
Qed.

Lemma getBook_not_found_status (id : jstring) (w : world) :
  status_404 w = true ->
  getBook id w =
  (Ok VNull, after_fetch w GET (API_BASE_URL ++ str "/books/" ++ id) None).
Proof.
  unfold status_404, getBook, try_catch, bind. rewrite fetch_reply.
  destruct (replies w) as [|[|status text] rest]; try discriminate.
  intros H. cbn [fst]. now rewrite H.
Qed.

Lemma getBook_fallback (id : jstring) (w : world) :
  request_fails w = true -> status_404 w = false ->
  getBook id w =
  (Ok (found id (mockBooks w)),
   logged (after_fetch w GET (API_BASE_URL ++ str "/books/" ++ id) None)
          EReadMockBooks).
Proof.
  unfold request_fails, status_404, getBook, try_catch, bind, found.
  rewrite fetch_reply.
  destruct (replies w) as [|[|status text] rest]; intros Hf H404.
  - cbn. now destruct (find_by_id id (mockBooks w)).
  - cbn. now destruct (find_by_id id (mockBooks w)).
  - cbn [fst]. rewrite H404. unfold check_ok, response_ok. cbn [fst snd].
    rewrite Hf. cbn. now destruct (find_by_id id (mockBooks w)).
Qed.

Lemma getReadingLists_fallback (w : world) :
  request_fails w = true ->
  getReadingLists w =
  (Ok (VArray (map VObject (mockReadingLists w))),
   logged (after_fetch w GET (API_BASE_URL ++ str "/reading-lists") None)
          EReadMockReadingLists).
Proof.
  intros H. unfold getReadingLists, try_catch.
  rewrite failing_request by assumption. reflexivity.
Qed.

Lemma deleteReadingList_fallback (id userId : jstring) (w : world) :
  request_fails w = true ->
  deleteReadingList id userId w =
  (Ok VUndefined,
   after_fetch w DELETE
     (API_BASE_URL ++ str "/reading-lists/" ++ id ++ str "?userId=" ++ userId)
     None).
Proof.
  intros H. unfold deleteReadingList, try_catch.
  rewrite failing_request by assumption. reflexivity.
Qed.

Lemma deleteBook_fallback (id : jstring) (w : world) :
  request_fails w = true ->
  deleteBook id w =
  (Ok VUndefined, after_fetch w DELETE (API_BASE_URL ++ str "/books/" ++ id) None).
Proof.
  intros H. unfold deleteBook, try_catch.
  rewrite failing_request by assumption. reflexivity.
Qed.

Lemma updateBook_fallback (id : jstring) (book : obj) (w : world) :
  request_fails w = true ->
  updateBook id book w =
  (match find_by_id id (mockBooks w) with
   | Some existingBook =>
       Ok (VObject (obj_set (spread (spread [] existingBook) book)
                      "id" (VString id)))
   | None => Hang (Error (str "Book " ++ id ++ str " not found"))
   end,
   logged (after_fetch w PUT (API_BASE_URL ++ str "/books/" ++ id)
             (Some (VObject book)))
          EReadMockBooks).
Proof.
  intros H. unfold updateBook, try_catch.
  rewrite failing_request by assumption.
  unfold set_timeout, bind, read_mockBooks, emit. cbn.
  now destruct (find_by_id id (mockBooks w)).
Qed.

Section ApiFallback.

Variable toISOString : Z -> jstring.

Lemma createReadingList_fallback (list : obj) (w : world) :
  request_fails w = true ->
  createReadingList toISOString list w =
  (Ok (VObject
         (obj_set (obj_set (obj_set (spread [] list)
            "id" (VString (decimal (clock w (ticks w)))))
            "createdAt" (VString (toISOString (clock w (1 + ticks w)%nat))))
            "updatedAt" (VString (toISOString (clock w (2 + ticks w)%nat))))),
   ticked (after_fetch w POST (API_BASE_URL ++ str "/reading-lists")
             (Some (VObject list))) 3).
Proof.
  intros H. unfold createReadingList, try_catch.
  rewrite failing_request by assumption. reflexivity.
Qed.

Lemma updateReadingList_fallback (id : jstring) (list : obj) (w : world) :
  truthy (field list "userId") = true ->
  request_fails w = true ->
  updateReadingList toISOString id list w =
  match find_by_id id (mockReadingLists w) with
  | Some existingList =>
      (Ok (VObject
             (obj_set (obj_set (spread (spread [] existingList) list)
                "id" (VString id))
                "updatedAt" (VString (toISOString (clock w (ticks w)))))),
       ticked (logged (after_fetch w PUT
                         (API_BASE_URL ++ str "/reading-lists/" ++ id)
                         (Some (VObject list)))
                      EReadMockReadingLists) 1)
  | None =>
      (Hang (Error (str "Reading list " ++ id ++ str " not found")),
       logged (after_fetch w PUT (API_BASE_URL ++ str "/reading-lists/" ++ id)
                 (Some (VObject list)))
              EReadMockReadingLists)
  end.
Proof.
  intros Hu H. unfold updateReadingList, try_catch. rewrite Hu. cbn [negb].
  rewrite failing_request by assumption.
  unfold set_timeout, bind, read_mockReadingLists, emit. cbn.
  now destruct (find_by_id id (mockReadingLists w)).
Qed.

End ApiFallback.

(* ====================================================================== *)
(** ** How the promises settle *)
(* ====================================================================== *)

Lemma no_throw_ret {A} (a : A) : no_throw (ret a).
Proof. intros w e; discriminate. Qed.

Lemma no_throw_bind {A B} (m : M A) (k : A -> M B) :
  no_throw m -> (forall a, no_throw (k a)) -> no_throw (bind m k).
Proof.
  intros Hm Hk w e. unfold bind. specialize (Hm w).
  destruct (m w) as [[a|e'|e'] w1]; simpl in *.
  - apply Hk.
  - now destruct (Hm e').
  - discriminate.
Qed.

Lemma no_throw_try_catch {A} (m : M A) (h : exn -> M A) :
  (forall e, no_throw (h e)) -> no_throw (try_catch m h).
Proof.
  intros Hh w e. unfold try_catch.
  destruct (m w) as [[a|e'|e'] w1]; simpl; try discriminate. apply Hh.
Qed.

Lemma no_throw_set_timeout {A} (ms : Z) (body : M A) :
  no_throw (set_timeout ms body).
Proof.
  intros w e. unfold set_timeout.
  destruct (body w) as [[a|e'|e'] w1]; discriminate.
Qed.

Lemma no_throw_emit (ev : event) : no_throw (emit ev).
Proof. intros w e; discriminate. Qed.

Lemma no_throw_read_mockBooks : no_throw read_mockBooks.
Proof. intros w e; discriminate. Qed.

Lemma no_throw_read_mockReadingLists : no_throw read_mockReadingLists.
Proof. intros w e; discriminate. Qed.

Lemma no_hang_ret {A} (a : A) : no_hang (ret a).
Proof. intros w e; discriminate. Qed.

Lemma no_hang_throw {A} (e : exn) : no_hang (@throw A e).
Proof. intros w e'; discriminate. Qed.

Lemma no_hang_bind {A B} (m : M A) (k : A -> M B) :
  no_hang m -> (forall a, no_hang (k a)) -> no_hang (bind m k).
Proof.
  intros Hm Hk w e. unfold bind. specialize (Hm w).
  destruct (m w) as [[a|e'|e'] w1]; simpl in *.
  - apply Hk.
  - discriminate.
  - now destruct (Hm e').
Qed.

Lemma no_hang_try_catch {A} (m : M A) (h : exn -> M A) :
  no_hang m -> (forall e, no_hang (h e)) -> no_hang (try_catch m h).
Proof.
  intros Hm Hh w e. unfold try_catch. specialize (Hm w).
  destruct (m w) as [[a|e'|e'] w1]; simpl in *.
  - discriminate.
  - apply Hh.
  - now destruct (Hm e').
Qed.

Lemma no_hang_set_timeout {A} (ms : Z) (body : M A) :
  no_throw body -> no_hang body -> no_hang (set_timeout ms body).
Proof.
  intros Ht Hh w e. unfold set_timeout. specialize (Ht w). specialize (Hh w).
  destruct (body w) as [[a|e'|e'] w1]; simpl in *.
  - discriminate.
  - now destruct (Ht e').
  - now destruct (Hh e').
Qed.

Lemma no_hang_emit (ev : event) : no_hang (emit ev).
Proof. intros w e; discriminate. Qed.

Lemma no_hang_fetch m url payload : no_hang (fetch m url payload).
Proof.
  intros w e. rewrite fetch_reply.
  destruct (replies w) as [|[|status text] rest]; discriminate.
Qed.

Lemma no_hang_check_ok response : no_hang (check_ok response).
Proof.
  unfold check_ok. destruct (negb (response_ok response));
    [apply no_hang_throw | apply no_hang_ret].
Qed.

Lemma no_hang_JSON_parse_or_throw text : no_hang (JSON_parse_or_throw text).
Proof.
  unfold JSON_parse_or_throw. destruct (JSON_parse text);
    [apply no_hang_ret | apply no_hang_throw].
Qed.

Lemma no_hang_response_json response : no_hang (response_json response).
Proof. apply no_hang_JSON_parse_or_throw. Qed.

Lemma no_hang_get_prop v k : no_hang (get_prop v k).
Proof.
  unfold get_prop. destruct (nullish v); [apply no_hang_throw | apply no_hang_ret].
Qed.

Lemma no_hang_template v : no_hang (template v).
Proof.
  unfold template. destruct (to_string_throws v);
    [apply no_hang_throw | apply no_hang_ret].
Qed.

Lemma resolves_ret {A} (a : A) : resolves (ret a).
Proof. intros w. now exists a. Qed.

Lemma resolves_bind {A B} (m : M A) (k : A -> M B) :
  resolves m -> (forall a, resolves (k a)) -> resolves (bind m k).
Proof.
  intros Hm Hk w. unfold bind. destruct (Hm w) as [a Ha].
  destruct (m w) as [[a'|e|e] w1]; simpl in *; try discriminate. apply Hk.
Qed.

Lemma resolves_try_catch {A} (m : M A) (h : exn -> M A) :
  no_hang m -> (forall e, resolves (h e)) -> resolves (try_catch m h).
Proof.
  intros Hm Hh w. unfold try_catch. specialize (Hm w).
  destruct (m w) as [[a|e|e] w1]; simpl in *.
  - now exists a.
  - apply Hh.
  - now destruct (Hm e).
Qed.

Lemma resolves_set_timeout {A} (ms : Z) (body : M A) :
  resolves body -> resolves (set_timeout ms body).
Proof.
  intros Hb w. unfold set_timeout. destruct (Hb w) as [a Ha].
  destruct (body w) as [[a'|e|e] w1]; simpl in *; try discriminate.
  now exists a'.
Qed.

Lemma resolves_emit (ev : event) : resolves (emit ev).
Proof. intros w. now exists tt. Qed.

Lemma resolves_Date_now : resolves Date_now.
Proof. intros w. now exists (clock w (ticks w)). Qed.

Lemma resolves_read_mockBooks : resolves read_mockBooks.
Proof. intros w. now exists (mockBooks w). Qed.

Lemma resolves_read_mockReadingLists : resolves read_mockReadingLists.
Proof. intros w. now exists (mockReadingLists w). Qed.

Create HintDb settle discriminated.

#[export] Hint Resolve no_throw_ret no_throw_set_timeout no_throw_emit
  no_throw_read_mockBooks no_throw_read_mockReadingLists
  no_hang_ret no_hang_throw no_hang_emit no_hang_fetch no_hang_check_ok
  no_hang_JSON_parse_or_throw no_hang_response_json no_hang_get_prop
  resolves_ret resolves_emit resolves_Date_now resolves_read_mockBooks
  resolves_read_mockReadingLists : settle.

#[export] Hint Resolve no_hang_template : settle.

Ltac settle_step :=
  match goal with
  | |- no_throw (bind _ _) => apply no_throw_bind; [|intros]
  | |- no_throw (try_catch _ _) => apply no_throw_try_catch; intros
  | |- no_hang (bind _ _) => apply no_hang_bind; [|intros]
  | |- no_hang (try_catch _ _) => apply no_hang_try_catch; [|intros]
  | |- no_hang (set_timeout _ _) => apply no_hang_set_timeout
  | |- resolves (bind _ _) => apply resolves_bind; [|intros]
  | |- resolves (try_catch _ _) => apply resolves_try_catch; [|intros]
  | |- resolves (set_timeout _ _) => apply resolves_set_timeout
  | |- _ (if ?c then _ else _) => destruct c
  | |- _ (match ?x with _ => _ end) => destruct x
  | |- _ => cbv zeta; solve [auto with settle]
  end.

Ltac settle_walk := repeat settle_step.

(** A request is the first thing an operation of the shape
    [try { fetch ...; k } catch { h }] leaves in the trace. *)
Lemma request_comes_first {A} m url payload
    (k : Z * jstring -> M A) (h : exn -> M A) (w : world) :
  (forall response, steady (k response)) -> (forall e, steady (h e)) ->
  exists evs,
    trace (snd (try_catch (bind (fetch m url payload) k) h w))
    = trace w ++ EFetch m url payload :: evs.
Proof.
  intros Hk Hh.
  assert (forall w', evolves (after_fetch w m url payload) w' ->
            exists evs, trace w' = trace w ++ EFetch m url payload :: evs) as Hgo.
  { intros w' (_ & _ & _ & evs & T). exists evs. rewrite T. simpl.
    now rewrite <- app_assoc. }
  apply Hgo. unfold try_catch, bind. rewrite fetch_reply.
  destruct (replies w) as [|[|status text] rest]; try apply Hh.
  specialize (Hk (status, text) (after_fetch w m url payload)).
  destruct (k (status, text) (after_fetch w m url payload)) as [[a|e|e] w1];
    simpl in *; auto.
  eapply evolves_trans; [exact Hk | apply Hh].
Qed.

(* ====================================================================== *)
(** ** Status 404 in [getBook] *)
(* ====================================================================== *)

(** C8.  When the response to [getBook] has the status 404, the operation
    resolves to [null] at once: the request is the only thing it leaves in
    the trace, the mock books are not read, whatever they hold (a book with
    that id too).  Put the other way round: a run of [getBook] that read the
    mock books was not answered with a 404. *)
Theorem getBook_404_returns_null (id : jstring) (w : world) :
  (status_404 w = true ->
     fst (getBook id w) = Ok VNull /\
     new_events w (snd (getBook id w))
       = [EFetch GET (API_BASE_URL ++ str "/books/" ++ id) None]) /\
  (In EReadMockBooks (new_events w (snd (getBook id w))) ->
     status_404 w = false).
Proof.
  assert (status_404 w = true ->
          fst (getBook id w) = Ok VNull /\
          new_events w (snd (getBook id w))
            = [EFetch GET (API_BASE_URL ++ str "/books/" ++ id) None]) as H404.
  { intros H. rewrite (getBook_not_found_status id w H). split; [reflexivity|].
    now apply new_events_app. }
  split; [exact H404|].
  intros Hin. destruct (status_404 w) eqn:E; [|reflexivity].
  destruct (H404 eq_refl) as [_ Hev]. rewrite Hev in Hin.
  destruct Hin as [Hin|[]]. discriminate.
Qed.

Lemma getBook_404_returns_null_witness :
  let w := Sample.world_of [Response 404 (str "Not Found")] in
  find_by_id (str "1") (mockBooks w) = Some Sample.book1 /\
  fst (getBook (str "1") w) = Ok VNull.
Proof.
  split; [reflexivity|].
  apply (proj1 (getBook_404_returns_null (str "1")
                  (Sample.world_of [Response 404 (str "Not Found")]))).
  reflexivity.
Defined.

(* ====================================================================== *)
(** ** The precondition of [updateReadingList] *)
(* ====================================================================== *)

(** C9.  [updateReadingList] on a partial list without a [userId] is
    rejected with "userId is required to update reading list" and leaves the
    world as it was: no request, no fallback.  [updateBook] has no such
    check: whatever the partial book, it sends its PUT request first, and its
    promise is never rejected. *)
Theorem updateReadingList_requires_userId
    (toISOString : Z -> jstring) (id : jstring) :
  (forall (list : obj) (w : world),
     obj_get list (str "userId") = None ->
     updateReadingList toISOString id list w
     = (Throw (Error (str "userId is required to update reading list")), w)) /\
  (forall (book : obj) (w : world),
     (forall e, fst (updateBook id book w) <> Throw e) /\
     exists evs,
       trace (snd (updateBook id book w))
       = trace w ++ EFetch PUT (API_BASE_URL ++ str "/books/" ++ id)
                      (Some (VObject book)) :: evs).
Proof.
  split.
  - intros list w H. unfold updateReadingList, field, prop_of. now rewrite H.
  - intros book w. split.
    + revert w. change (no_throw (updateBook id book)).
      unfold updateBook. settle_walk.
    + unfold updateBook. apply request_comes_first; intros; steady_walk.
Qed.

Lemma updateReadingList_requires_userId_witness :
  let list := [ (str "name", VString (str "Winter Reading")) ] in
  let w := Sample.world_of [] in
  obj_get list (str "userId") = None /\
  updateReadingList Sample.iso (str "1") list w
  = (Throw (Error (str "userId is required to update reading list")), w).
Proof.
  split; [reflexivity|].
  apply (proj1 (updateReadingList_requires_userId Sample.iso (str "1"))).
  reflexivity.
Defined.

(* ====================================================================== *)
(** ** The name check of the reading-list page *)
(* ====================================================================== *)

(** C7.  When the name typed for a new list is empty or made of whitespace
    only, [handleCreateList] alerts and returns: the component's state, its
    lists among it, is unchanged, no request is sent (no reply is taken, the
    alert is the only new event), so [createReadingList] is not called. *)
Theorem handleCreateList_rejects_blank_name
    (toISOString : Z -> jstring) (p : page) (w : world) :
  forallb is_js_whitespace (newListName p) = true ->
  handleCreateList toISOString p w
  = (Ok p, logged w (EAlert (str "Please enter a list name"))).
Proof.
  intros H. unfold handleCreateList. rewrite (trim_whitespace _ H). reflexivity.
Qed.

Lemma handleCreateList_rejects_blank_name_witness :
  let p := Sample.page0 [32%N; 9%N; 160%N; 8195%N] in
  let w := Sample.world_of [Response 200 (str "{}")] in
  forallb is_js_whitespace (newListName p) = true /\
  handleCreateList Sample.iso p w
  = (Ok p, logged w (EAlert (str "Please enter a list name"))).
Proof.
  split; [reflexivity|].
  apply (handleCreateList_rejects_blank_name Sample.iso). reflexivity.
Defined.

(* ====================================================================== *)
(** ** The mock store is read only *)
(* ====================================================================== *)

Lemma run_calls_evolves (toISOString : Z -> jstring) (cs : list call) (w : world) :
  evolves w (snd (run_calls toISOString cs w)).
Proof.
  revert w. induction cs as [|c cs IH]; intros w; simpl.
  - apply evolves_refl.
  - pose proof (steady_run_call toISOString c w) as Hc.
    destruct (run_call toISOString c w) as [r w1]. simpl in Hc.
    specialize (IH w1).
    destruct (run_calls toISOString cs w1) as [rs w2]. simpl in *.
    eapply evolves_trans; eassumption.
Qed.

(** C10.  No operation of the layer changes the mock store: after any
    sequence of calls, [mockBooks] and [mockReadingLists] are what they
    were.  On a failing request [getBooks] resolves to a new array of the
    stored books and [getBook] to the stored book found (or to [null]); the
    update fallbacks return a record built from the stored one, which stays
    in the store as it was. *)
Theorem mock_store_is_never_changed (toISOString : Z -> jstring) :
  (forall (cs : list call) (w : world),
     mockBooks (snd (run_calls toISOString cs w)) = mockBooks w /\
     mockReadingLists (snd (run_calls toISOString cs w)) = mockReadingLists w) /\
  (forall w, request_fails w = true ->
     fst (getBooks w) = Ok (VArray (map VObject (mockBooks w)))) /\
  (forall id w, request_fails w = true ->
     fst (getBook id w) = Ok VNull \/
     exists b, In b (mockBooks w) /\ fst (getBook id w) = Ok (VObject b)) /\
  (forall id book w existing,
     request_fails w = true ->
     find_by_id id (mockBooks w) = Some existing ->
     fst (updateBook id book w)
     = Ok (VObject (obj_set (spread (spread [] existing) book)
                      (str "id") (VString id))) /\
     find_by_id id (mockBooks (snd (updateBook id book w))) = Some existing) /\
  (forall id list w existing,
     request_fails w = true ->
     truthy (field list (str "userId")) = true ->
     find_by_id id (mockReadingLists w) = Some existing ->
     fst (updateReadingList toISOString id list w)
     = Ok (VObject
             (obj_set (obj_set (spread (spread [] existing) list)
                (str "id") (VString id))
                (str "updatedAt") (VString (toISOString (clock w (ticks w)))))) /\
     find_by_id id
       (mockReadingLists (snd (updateReadingList toISOString id list w)))
     = Some existing).
Proof.
  repeat split.
  - apply (run_calls_evolves toISOString cs w).
  - apply (run_calls_evolves toISOString cs w).
  - intros w H. now rewrite getBooks_fallback.
  - intros id w Hf. destruct (status_404 w) eqn:H404;
      [left; now rewrite getBook_not_found_status|].
    rewrite getBook_fallback by assumption.
    unfold found. cbn [fst]. unfold find_by_id.
    destruct (find _ (mockBooks w)) as [b|] eqn:E; [right|left; reflexivity].
    exists b. split; [|reflexivity]. now apply find_some in E.
  - rewrite updateBook_fallback by assumption.
    match goal with H : find_by_id _ _ = Some _ |- _ => now rewrite H end.
  - rewrite updateBook_fallback by assumption. assumption.
  - rewrite updateReadingList_fallback by assumption.
    match goal with H : find_by_id _ _ = Some _ |- _ => now rewrite H end.
  - rewrite updateReadingList_fallback by assumption.
    match goal with H : find_by_id _ _ = Some _ |- _ => now rewrite H end.
Qed.

Lemma mock_store_is_never_changed_witness :
  let w := Sample.world_of [] in
  let partial := [ (str "title", VString (str "A New Title")) ] in
  request_fails w = true /\
  fst (getBooks w) = Ok (VArray (map VObject (mockBooks w))) /\
  find_by_id (str "1") (mockBooks (snd (updateBook (str "1") partial w)))
  = Some Sample.book1.
Proof.
  destruct (mock_store_is_never_changed Sample.iso)
    as (_ & Hbooks & _ & Hupdate & _).
  split; [reflexivity|]. split; [apply Hbooks; reflexivity|].
  apply (Hupdate (str "1") [ (str "title", VString (str "A New Title")) ]
           (Sample.world_of []) Sample.book1 eq_refl eq_refl).
Defined.

(* ====================================================================== *)
(** ** What [JSON.parse] returns *)
(* ====================================================================== *)

Ltac break_match :=
  match goal with
  | H : context [match ?x with _ => _ end] |- _ => destruct x eqn:?
  | H : context [if ?x then _ else _] |- _ => destruct x eqn:?
  end.

Lemma number_defined (cs rest : jstring) (v : value) :
  Json.number cs = Some (v, rest) -> v <> VUndefined.
Proof.
  unfold Json.number. intros H.
  repeat (break_match; try discriminate);
    injection H as <- _; discriminate.
Qed.

Lemma literal_defined (word cs rest : jstring) (v0 v : value) :
  v0 <> VUndefined -> Json.literal word v0 cs = Some (v, rest) -> v <> VUndefined.
Proof.
  unfold Json.literal. intros Hv H.
  destruct (jstr_eqb _ word); [|discriminate]. now injection H as <- _.
Qed.

Lemma parse_value_defined (fuel : nat) (cs rest : jstring) (v : value) :
  Json.parse_value fuel cs = Some (v, rest) -> v <> VUndefined.
Proof.
  destruct fuel as [|fuel]; simpl; [discriminate|].
  intros H.
  destruct (Json.skip_ws cs) as [|c r]; [discriminate|].
  repeat (break_match; try discriminate);
    try (injection H as <- _; discriminate);
    try (eapply literal_defined; [|eassumption]; discriminate).
  eapply number_defined; eassumption.
Qed.

(** [JSON.parse] never returns [undefined], and rejects the empty text. *)
Lemma JSON_parse_defined (text : jstring) (v : value) :
  JSON_parse text = Some v -> v <> VUndefined.
Proof.
  unfold JSON_parse, Json.parse. intros H.
  destruct (Json.parse_value _ text) as [[v' rest]|] eqn:E; [|discriminate].
  destruct (Json.skip_ws rest); [|discriminate].
  injection H as <-. eapply parse_value_defined; eassumption.
Qed.

Lemma JSON_parse_nonempty (text : jstring) (v : value) :
  JSON_parse text = Some v -> text <> [].
Proof. intros H ->. discriminate. Qed.

(** An answered request goes on to read the body. *)
Lemma answered_request {A} m url payload (k : Z * jstring -> M A)
    (w : world) (status : Z) (text : jstring) (rest : list reply) :
  replies w = Response status text :: rest ->
  (200 <=? status) && (status <=? 299) = true ->
  bind (fetch m url payload)
       (fun response => bind (check_ok response) (fun _ => k response)) w
  = k (status, text) (after_fetch w m url payload).
Proof.
  intros Hr Hok. unfold bind. rewrite fetch_reply, Hr.
  unfold check_ok, response_ok. cbn [fst snd]. now rewrite Hok.
Qed.

(** The string that makes a response a Lambda envelope is not empty and its
    holder is an object. *)
Lemma envelope_body (result : value) (s : jstring) (v : value) :
  prop_of result (str "body") = VString s -> JSON_parse s = Some v ->
  nullish result = false /\ is_lambda_body (prop_of result (str "body")) = true.
Proof.
  intros Hb Hp. split.
  - destruct result; try discriminate; reflexivity.
  - rewrite Hb. apply JSON_parse_nonempty in Hp. now destruct s.
Qed.

(* ====================================================================== *)
(** ** Answered requests: reading the body *)
(* ====================================================================== *)

Lemma status_2xx_not_404 (status : Z) :
  (200 <=? status) && (status <=? 299) = true -> (status =? 404) = false.
Proof.
  intros H. apply andb_true_iff in H as [_ H]. apply Z.leb_le in H.
  apply Z.eqb_neq. lia.
Qed.

Section Answered.

Variable toISOString : Z -> jstring.
Variables (w : world) (status : Z) (text : jstring) (rest : list reply).
Variable result : value.

Hypothesis Hreply : replies w = Response status text :: rest.
Hypothesis Hok : (200 <=? status) && (status <=? 299) = true.
Hypothesis Hjson : JSON_parse text = Some result.

(** Runs the [try] block up to the decision on the shape of the body. *)
Ltac read_body :=
  unfold try_catch;
  rewrite (answered_request _ _ _ _ w status text rest Hreply Hok);
  unfold response_json, JSON_parse_or_throw, bind, get_prop, ret, throw;
  cbn [fst snd]; rewrite Hjson.

Ltac read_book_body :=
  unfold getBook, try_catch, bind; rewrite fetch_reply, Hreply; cbn [fst];
  rewrite (status_2xx_not_404 status Hok);
  unfold check_ok, response_ok, response_json, JSON_parse_or_throw, bind,
    get_prop, ret, throw;
  cbn [fst snd]; rewrite Hok; cbn [negb]; rewrite Hjson.

Section Envelope.

Variables (s : jstring) (v : value).
Hypothesis Hbody : prop_of result (str "body") = VString s.
Hypothesis Hinner : JSON_parse s = Some v.

Ltac open_envelope :=
  destruct (envelope_body result s v Hbody Hinner) as [Hnn Hlb];
  rewrite Hnn, Hlb, Hbody; cbn [string_of]; rewrite Hinner.

Lemma getBook_envelope (id : jstring) : fst (getBook id w) = Ok v.
Proof. read_book_body. open_envelope. reflexivity. Qed.

Lemma getReviews_envelope (bookId : jstring) : fst (getReviews bookId w) = Ok v.
Proof. unfold getReviews. read_body. open_envelope. reflexivity. Qed.

Lemma createReview_envelope (review : obj) :
  fst (createReview toISOString review w) = Ok v.
Proof. unfold createReview. read_body. open_envelope. reflexivity. Qed.

Lemma deleteReadingList_answered (id userId : jstring) :
  fst (deleteReadingList id userId w) = Ok VUndefined.
Proof. unfold deleteReadingList. read_body. reflexivity. Qed.

Lemma deleteBook_answered (id : jstring) : fst (deleteBook id w) = Ok VUndefined.
Proof. unfold deleteBook. read_body. reflexivity. Qed.

Hypothesis Hnotnull : v <> VNull.

Lemma inner_not_nullish : nullish v = false.
Proof.
  pose proof (JSON_parse_defined s v Hinner).
  destruct v; try reflexivity; congruence.
Qed.

(** The payload is returned when the count written into the log line has
    a text; the mock data otherwise. *)
Lemma getBooks_envelope :
  fst (getBooks w)
  = Ok (if to_string_throws (prop_of v (str "length"))
        then VArray (map VObject (mockBooks w)) else v).
Proof.
  unfold getBooks. read_body. open_envelope.
  rewrite inner_not_nullish. unfold template.
  now destruct (to_string_throws (prop_of v (str "length"))).
Qed.

Lemma getReadingLists_envelope :
  fst (getReadingLists w)
  = Ok (if to_string_throws (prop_of v (str "length"))
        then VArray (map VObject (mockReadingLists w)) else v).
Proof.
  unfold getReadingLists. read_body. open_envelope.
  rewrite inner_not_nullish. unfold template.
  now destruct (to_string_throws (prop_of v (str "length"))).
Qed.

Lemma createReadingList_envelope (list : obj) :
  fst (createReadingList toISOString list w)
  = Ok (js_or (prop_of v (str "list")) v).
Proof.
  unfold createReadingList. read_body. open_envelope.
  now rewrite inner_not_nullish.
Qed.

Lemma updateReadingList_envelope (id : jstring) (list : obj) :
  truthy (field list (str "userId")) = true ->
  fst (updateReadingList toISOString id list w)
  = Ok (js_or (prop_of v (str "list")) v).
Proof.
  intros Hu. unfold updateReadingList. rewrite Hu. cbn [negb].
  read_body. open_envelope. now rewrite inner_not_nullish.
Qed.

Lemma createBook_envelope (book : obj) :
  fst (createBook book w) = Ok (js_or (prop_of v (str "book")) v).
Proof.
  unfold createBook. read_body. open_envelope.
  now rewrite inner_not_nullish.
Qed.

Lemma updateBook_envelope (id : jstring) (book : obj) :
  fst (updateBook id book w) = Ok (js_or (prop_of v (str "book")) v).
Proof.
  unfold updateBook. read_body. open_envelope.
  now rewrite inner_not_nullish.
Qed.

End Envelope.

End Answered.

Section AnsweredPlain.

Variables (w : world) (status : Z) (text : jstring) (rest : list reply).
Variable result : value.

Hypothesis Hreply : replies w = Response status text :: rest.
Hypothesis Hok : (200 <=? status) && (status <=? 299) = true.
Hypothesis Hjson : JSON_parse text = Some result.

Ltac read_body :=
  unfold try_catch;
  rewrite (answered_request _ _ _ _ w status text rest Hreply Hok);
  unfold response_json, JSON_parse_or_throw, bind, get_prop, ret, throw;
  cbn [fst snd]; rewrite Hjson.

Ltac read_book_body :=
  unfold getBook, try_catch, bind; rewrite fetch_reply, Hreply; cbn [fst];
  rewrite (status_2xx_not_404 status Hok);
  unfold check_ok, response_ok, response_json, JSON_parse_or_throw, bind,
    get_prop, ret, throw;
  cbn [fst snd]; rewrite Hok; cbn [negb]; rewrite Hjson.

(** A bare array. *)
Lemma getBooks_array xs : result = VArray xs -> fst (getBooks w) = Ok result.
Proof. intros ->. unfold getBooks. read_body. reflexivity. Qed.

Lemma getReadingLists_array xs :
  result = VArray xs -> fst (getReadingLists w) = Ok result.
Proof. intros ->. unfold getReadingLists. read_body. reflexivity. Qed.

Lemma getReviews_array xs bookId :
  result = VArray xs -> fst (getReviews bookId w) = Ok result.
Proof. intros ->. unfold getReviews. read_body. reflexivity. Qed.

Lemma getBook_array xs id : result = VArray xs -> fst (getBook id w) = Ok VNull.
Proof. intros ->. read_book_body. reflexivity. Qed.

(** [null]: the read of [result.body] raises, the fallback runs. *)
Lemma getBooks_null :
  result = VNull -> fst (getBooks w) = Ok (VArray (map VObject (mockBooks w))).
Proof. intros ->. unfold getBooks. read_body. reflexivity. Qed.

Lemma getReadingLists_null :
  result = VNull ->
  fst (getReadingLists w) = Ok (VArray (map VObject (mockReadingLists w))).
Proof. intros ->. unfold getReadingLists. read_body. reflexivity. Qed.

Lemma getReviews_null bookId :
  result = VNull -> fst (getReviews bookId w) = Ok (mockReviews bookId).
Proof. intros ->. unfold getReviews. read_body. reflexivity. Qed.

Lemma getBook_null id :
  result = VNull -> fst (getBook id w) = Ok (found id (mockBooks w)).
Proof.
  intros ->. read_book_body. unfold found. cbn.
  now destruct (find_by_id id (mockBooks w)).
Qed.

(** A boolean, a number, a string. *)
Lemma getBooks_primitive :
  is_primitive result = true ->
  fst (getBooks w) = Ok (VArray (map VObject (mockBooks w))).
Proof.
  intros H. unfold getBooks. read_body.
  destruct result; try discriminate; reflexivity.
Qed.

Lemma getReadingLists_primitive :
  is_primitive result = true -> fst (getReadingLists w) = Ok (VArray []).
Proof.
  intros H. unfold getReadingLists. read_body.
  destruct result as [| |b|m e|s| |]; try discriminate; try reflexivity.
  - now destruct b.
  - cbn. now destruct (rounds_to_zero m e).
  - now destruct s.
Qed.

Lemma getReviews_primitive bookId :
  is_primitive result = true -> fst (getReviews bookId w) = Ok (VArray []).
Proof.
  intros H. unfold getReviews. read_body.
  destruct result; try discriminate; reflexivity.
Qed.

Lemma getBook_primitive id :
  is_primitive result = true -> fst (getBook id w) = Ok VNull.
Proof.
  intros H. read_book_body.
  destruct result; try discriminate; reflexivity.
Qed.

(** An object that is not an envelope. *)
Section PlainObject.

Variable o : obj.
Hypothesis Hobject : result = VObject o.
Hypothesis Hplain : is_lambda_body (field o (str "body")) = false.

Lemma getBooks_object :
  fst (getBooks w) = Ok (VArray (map VObject (mockBooks w))).
Proof.
  unfold getBooks. read_body. rewrite Hobject. cbn [nullish].
  fold (field o (str "body")). rewrite Hplain. reflexivity.
Qed.

Lemma getReadingLists_object : fst (getReadingLists w) = Ok (VArray [result]).
Proof.
  unfold getReadingLists. read_body. rewrite Hobject. cbn [nullish].
  fold (field o (str "body")). rewrite Hplain. reflexivity.
Qed.

Lemma getReviews_object bookId : fst (getReviews bookId w) = Ok (VArray []).
Proof.
  unfold getReviews. read_body. rewrite Hobject. cbn [nullish].
  fold (field o (str "body")). rewrite Hplain. reflexivity.
Qed.

Lemma getBook_object id :
  fst (getBook id w)
  = Ok (if truthy (field o (str "id")) then
          if to_string_throws (field o (str "title"))
          then found id (mockBooks w) else result
        else if truthy (js_and (field o (str "success")) (field o (str "book")))
             then
               if to_string_throws (prop_of (field o (str "book")) (str "title"))
               then found id (mockBooks w) else field o (str "book")
             else VNull).
Proof.
  read_book_body. rewrite Hobject. cbn [nullish].
  fold (field o (str "body")). rewrite Hplain.
  fold (field o (str "id")).
  destruct (truthy (field o (str "id"))).
  - fold (field o (str "title")). unfold template, found.
    destruct (to_string_throws (field o (str "title"))); [|reflexivity].
    cbn. now destruct (find_by_id id (mockBooks w)).
  - fold (field o (str "success")). fold (field o (str "book")).
    destruct (truthy (js_and (field o (str "success")) (field o (str "book"))))
      eqn:E; [|reflexivity].
    assert (nullish (field o (str "book")) = false) as ->.
    { unfold js_and in E.
      destruct (truthy (field o (str "success"))) eqn:Es.
      - now destruct (field o (str "book")).
      - congruence. }
    unfold template, found.
    destruct (to_string_throws (prop_of (field o (str "book")) (str "title")));
      [|reflexivity].
    cbn. now destruct (find_by_id id (mockBooks w)).
Qed.

Lemma updateBook_object id book : fst (updateBook id book w) = Ok result.
Proof.
  unfold updateBook. read_body. rewrite Hobject. cbn [nullish].
  fold (field o (str "body")). rewrite Hplain. reflexivity.
Qed.

End PlainObject.

End AnsweredPlain.

(* ====================================================================== *)
(** ** Lambda envelopes *)
(* ====================================================================== *)

(** C4, as the code has it.  Let a request be answered with a 2xx status and
    a body that is a Lambda envelope, its [body] a string that
    [JSON.parse] turns into the payload [v].  Then [getBook], [getReviews]
    and [createReview] resolve to [v]; the two deletes resolve to
    [undefined].  When [v] is not [null]: [getBooks] and [getReadingLists]
    write [v.length] into a log line and resolve to [v] when that has a
    text, as it has for every array, and to their mock data when ToString
    raises on it; [createReadingList] and [updateReadingList] resolve to
    [v.list] if that is truthy and to [v] otherwise, [createBook] and
    [updateBook] likewise with [v.book]. *)
Theorem envelope_returns_inner_payload
    (toISOString : Z -> jstring) (w : world) (status : Z) (text : jstring)
    (rest : list reply) (result : value) (s : jstring) (v : value) :
  replies w = Response status text :: rest ->
  (200 <=? status) && (status <=? 299) = true ->
  JSON_parse text = Some result ->
  prop_of result (str "body") = VString s ->
  JSON_parse s = Some v ->
  (forall id, fst (getBook id w) = Ok v) /\
  (forall bookId, fst (getReviews bookId w) = Ok v) /\
  (forall review, fst (createReview toISOString review w) = Ok v) /\
  (forall id userId, fst (deleteReadingList id userId w) = Ok VUndefined) /\
  (forall id, fst (deleteBook id w) = Ok VUndefined) /\
  (v <> VNull ->
     fst (getBooks w)
     = Ok (if to_string_throws (prop_of v (str "length"))
           then VArray (map VObject (mockBooks w)) else v) /\
     fst (getReadingLists w)
     = Ok (if to_string_throws (prop_of v (str "length"))
           then VArray (map VObject (mockReadingLists w)) else v) /\
     (forall xs,
        v = VArray xs ->
        fst (getBooks w) = Ok v /\ fst (getReadingLists w) = Ok v) /\
     (forall list,
        fst (createReadingList toISOString list w)
        = Ok (js_or (prop_of v (str "list")) v)) /\
     (forall id list,
        truthy (field list (str "userId")) = true ->
        fst (updateReadingList toISOString id list w)
        = Ok (js_or (prop_of v (str "list")) v)) /\
     (forall book,
        fst (createBook book w) = Ok (js_or (prop_of v (str "book")) v)) /\
     (forall id book,
        fst (updateBook id book w) = Ok (js_or (prop_of v (str "book")) v))).
Proof.
  intros Hreply Hok Hjson Hbody Hinner.
  repeat split; intros.
  - eapply getBook_envelope; eassumption.
  - eapply getReviews_envelope; eassumption.
  - eapply createReview_envelope; eassumption.
  - eapply deleteReadingList_answered; eassumption.
  - eapply deleteBook_answered; eassumption.
  - eapply getBooks_envelope; eassumption.
  - eapply getReadingLists_envelope; eassumption.
  - subst v. erewrite getBooks_envelope by eassumption. reflexivity.
  - subst v. erewrite getReadingLists_envelope by eassumption. reflexivity.
  - eapply createReadingList_envelope; eassumption.
  - eapply updateReadingList_envelope; eassumption.
  - eapply createBook_envelope; eassumption.
  - eapply updateBook_envelope; eassumption.
Qed.

Lemma envelope_returns_inner_payload_witness :
  let text := Sample.envelope Sample.books_text_escaped in
  let w := Sample.world_of [Response 200 text] in
  JSON_parse Sample.books_text = Some Sample.books_payload /\
  fst (getBook (str "7") w) = Ok Sample.books_payload /\
  fst (getBooks w) = Ok Sample.books_payload.
Proof.
  pose proof (envelope_returns_inner_payload Sample.iso
    (Sample.world_of [Response 200 (Sample.envelope Sample.books_text_escaped)])
    200 (Sample.envelope Sample.books_text_escaped) []
    (VObject [ (str "statusCode", VNumber 200 0); (str "headers", VObject []);
               (str "body", VString Sample.books_text) ])
    Sample.books_text Sample.books_payload
    eq_refl eq_refl eq_refl eq_refl eq_refl) as (Hbook & _ & _ & _ & _ & Hrest).
  split; [reflexivity|]. split; [apply Hbook|].
  apply Hrest. discriminate.
Defined.

(** C4 as stated fails for the payload [null]: the envelope
    [{"statusCode":200,"headers":{},"body":"null"}] parses, its inner string
    parses to [null], and [getBooks] resolves to the mock books, because
    reading [books.length] raises inside the [try]. *)
Lemma getBooks_null_payload_falls_back :
  let text := Sample.envelope (str "null") in
  let w := Sample.world_of [Response 200 text] in
  JSON_parse text
  = Some (VObject [ (str "statusCode", VNumber 200 0); (str "headers", VObject []);
                    (str "body", VString (str "null")) ]) /\
  JSON_parse (str "null") = Some VNull /\
  fst (getBooks w) = Ok (VArray [VObject Sample.book1]) /\
  fst (getBooks w) <> Ok VNull.
Proof.
  repeat split; try reflexivity. discriminate.
Qed.

(* ====================================================================== *)
(** ** The shapes the reads accept *)
(* ====================================================================== *)

(** C5, as the code has it.  Let a request be answered with a 2xx status and
    a body that parses to [result].
    - An envelope whose inner string parses to [v]: [getBook] and
      [getReviews] resolve to [v]; when [v] is not [null], [getBooks] and
      [getReadingLists] resolve to [v] if [v.length], which they write into
      a log line, has a text, and to their mock data if ToString raises on
      it.
    - A bare array: [getBooks], [getReadingLists] and [getReviews] resolve
      to it, [getBook] to [null].
    - An object that is no envelope: [getBook] takes the object when its
      [id] is truthy, and its [book] when [success] and [book] are truthy;
      it writes the title of the one it takes into a log line, resolves to
      it when the title has a text and to the mock book of the id asked for
      (or [null]) when ToString raises on the title; it resolves to [null]
      otherwise.  [getReadingLists] wraps the object in a one-element array;
      [getReviews] resolves to the empty array; [getBooks] takes it for a
      failure and resolves to the mock books (so a [{success, books}]
      wrapper is not accepted).
    - A boolean, a number or a string: [null] from [getBook], the empty array
      from [getReadingLists] and [getReviews], the mock books from
      [getBooks].
    - [null]: every read falls back to its mock data. *)
Theorem read_operations_accept_shapes
    (w : world) (status : Z) (text : jstring) (rest : list reply)
    (result : value) :
  replies w = Response status text :: rest ->
  (200 <=? status) && (status <=? 299) = true ->
  JSON_parse text = Some result ->
  (forall s v,
     prop_of result (str "body") = VString s -> JSON_parse s = Some v ->
     (forall id, fst (getBook id w) = Ok v) /\
     (forall bookId, fst (getReviews bookId w) = Ok v) /\
     (v <> VNull ->
      fst (getBooks w)
      = Ok (if to_string_throws (prop_of v (str "length"))
            then VArray (map VObject (mockBooks w)) else v) /\
      fst (getReadingLists w)
      = Ok (if to_string_throws (prop_of v (str "length"))
            then VArray (map VObject (mockReadingLists w)) else v))) /\
  (forall xs,
     result = VArray xs ->
     fst (getBooks w) = Ok result /\
     fst (getReadingLists w) = Ok result /\
     (forall bookId, fst (getReviews bookId w) = Ok result) /\
     (forall id, fst (getBook id w) = Ok VNull)) /\
  (forall o,
     result = VObject o ->
     is_lambda_body (field o (str "body")) = false ->
     (forall id,
        fst (getBook id w)
        = Ok (if truthy (field o (str "id")) then
                if to_string_throws (field o (str "title"))
                then found id (mockBooks w) else result
              else if truthy (js_and (field o (str "success"))
                                     (field o (str "book")))
                   then
                     if to_string_throws
                          (prop_of (field o (str "book")) (str "title"))
                     then found id (mockBooks w) else field o (str "book")
                   else VNull)) /\
     fst (getReadingLists w) = Ok (VArray [result]) /\
     (forall bookId, fst (getReviews bookId w) = Ok (VArray [])) /\
     fst (getBooks w) = Ok (VArray (map VObject (mockBooks w)))) /\
  (is_primitive result = true ->
     (forall id, fst (getBook id w) = Ok VNull) /\
     fst (getReadingLists w) = Ok (VArray []) /\
     (forall bookId, fst (getReviews bookId w) = Ok (VArray [])) /\
     fst (getBooks w) = Ok (VArray (map VObject (mockBooks w)))) /\
  (result = VNull ->
     (forall id, fst (getBook id w) = Ok (found id (mockBooks w))) /\
     fst (getReadingLists w) = Ok (VArray (map VObject (mockReadingLists w))) /\
     (forall bookId, fst (getReviews bookId w) = Ok (mockReviews bookId)) /\
     fst (getBooks w) = Ok (VArray (map VObject (mockBooks w)))).
Proof.
  intros Hreply Hok Hjson.
  split; [|split; [|split; [|split]]].
  - intros s v Hbody Hinner. repeat split; intros.
    + eapply getBook_envelope; eassumption.
    + eapply getReviews_envelope; eassumption.
    + eapply getBooks_envelope; eassumption.
    + eapply getReadingLists_envelope; eassumption.
  - intros xs Hxs. repeat split; intros.
    + eapply getBooks_array; eassumption.
    + eapply getReadingLists_array; eassumption.
    + eapply getReviews_array; eassumption.
    + eapply getBook_array; eassumption.
  - intros o Ho Hplain. repeat split; intros.
    + eapply getBook_object; eassumption.
    + eapply getReadingLists_object; eassumption.
    + eapply getReviews_object; eassumption.
    + eapply getBooks_object; eassumption.
  - intros Hprim. repeat split; intros.
    + eapply getBook_primitive; eassumption.
    + eapply getReadingLists_primitive; eassumption.
    + eapply getReviews_primitive; eassumption.
    + eapply getBooks_primitive; eassumption.
  - intros Hnull. repeat split; intros.
    + eapply getBook_null; eassumption.
    + eapply getReadingLists_null; eassumption.
    + eapply getReviews_null; eassumption.
    + eapply getBooks_null; eassumption.
Qed.

Lemma read_operations_accept_shapes_witness :
  let w := Sample.world_of [Response 200 Sample.book2_text] in
  JSON_parse Sample.book2_text = Some (VObject Sample.book2) /\
  fst (getBook (str "2") w) = Ok (VObject Sample.book2) /\
  fst (getReadingLists w) = Ok (VArray [VObject Sample.book2]).
Proof.
  pose proof (read_operations_accept_shapes
    (Sample.world_of [Response 200 Sample.book2_text])
    200 Sample.book2_text [] (VObject Sample.book2)
    eq_refl eq_refl eq_refl) as (_ & _ & Hobject & _).
  destruct (Hobject Sample.book2 eq_refl eq_refl) as (Hbook & Hlists & _).
  split; [reflexivity|]. split; [apply (Hbook (str "2"))|apply Hlists].
Defined.

(** C5 as stated fails for [getBooks] on the wrapper
    [{"success":true,"books":[{"id":"7"}]}]: the body parses, and the
    operation resolves to the mock books, not to the books of the wrapper. *)
Lemma getBooks_rejects_success_wrapper :
  let w := Sample.world_of [Response 200 Sample.success_books_text] in
  JSON_parse Sample.success_books_text
  = Some (VObject [ (str "success", VBool true);
                    (str "books", Sample.books_payload) ]) /\
  fst (getBooks w) = Ok (VArray [VObject Sample.book1]) /\
  fst (getBooks w) <> Ok Sample.books_payload.
Proof.
  repeat split; try reflexivity. discriminate.
Qed.

(* ====================================================================== *)
(** ** Reads on a status that is not 2xx *)
(* ====================================================================== *)

Lemma found_spec (id : jstring) (records : list obj) :
  match found id records with
  | VObject b => In b records /\ field b (str "id") = VString id
  | _ => forall b, In b records -> field b (str "id") <> VString id
  end.
Proof.
  unfold found, find_by_id.
  destruct (find _ records) as [b|] eqn:E.
  - apply find_some in E as [Hin Heq]. split; [exact Hin|].
    unfold strict_eq_string in Heq.
    destruct (field b (str "id")); try discriminate.
    apply jstr_eqb_eq in Heq. now subst.
  - intros b Hin Hid. pose proof (find_none _ _ E b Hin) as Hno.
    cbn beta in Hno. rewrite Hid in Hno. cbn in Hno.
    now rewrite jstr_eqb_refl in Hno.
Qed.

(** C2, as the code has it.  On a response whose status is not 2xx,
    [getBooks] resolves to the whole mock collection; [getBook] resolves to
    [null] when the status is 404 and otherwise to the first mock book whose
    id is the one asked for, or to [null] when the mock books have none. *)
Theorem reads_fall_back_on_error_status
    (w : world) (status : Z) (text : jstring) (rest : list reply) :
  replies w = Response status text :: rest ->
  (200 <=? status) && (status <=? 299) = false ->
  fst (getBooks w) = Ok (VArray (map VObject (mockBooks w))) /\
  (forall id,
     fst (getBook id w)
     = Ok (if status =? 404 then VNull else found id (mockBooks w))) /\
  (forall id,
     match found id (mockBooks w) with
     | VObject b => In b (mockBooks w) /\ field b (str "id") = VString id
     | _ => forall b, In b (mockBooks w) -> field b (str "id") <> VString id
     end).
Proof.
  intros Hreply Hbad.
  assert (request_fails w = true) as Hfails.
  { unfold request_fails. now rewrite Hreply, Hbad. }
  split; [|split].
  - now rewrite getBooks_fallback.
  - intros id. destruct (status =? 404) eqn:E.
    + rewrite getBook_not_found_status; [reflexivity|].
      unfold status_404. now rewrite Hreply.
    + rewrite getBook_fallback; [reflexivity|assumption|].
      unfold status_404. now rewrite Hreply.
  - intros id. apply found_spec.
Qed.

Lemma reads_fall_back_on_error_status_witness :
  let w := Sample.world_of [Response 500 (str "Internal Server Error")] in
  fst (getBooks w) = Ok (VArray [VObject Sample.book1]) /\
  fst (getBook (str "1") w) = Ok (VObject Sample.book1).
Proof.
  pose proof (reads_fall_back_on_error_status
    (Sample.world_of [Response 500 (str "Internal Server Error")])
    500 (str "Internal Server Error") [] eq_refl eq_refl) as (Hbooks & Hbook & _).
  split; [exact Hbooks | exact (Hbook (str "1"))].
Defined.

(** C2 as stated fails at the status 404, which is not 2xx: the mock store
    has a book with the id 1, and [getBook] resolves to [null]. *)
Lemma getBook_404_skips_mock_book :
  let w := Sample.world_of [Response 404 (str "Not Found")] in
  (200 <=? 404) && (404 <=? 299) = false /\
  find_by_id (str "1") (mockBooks w) = Some Sample.book1 /\
  fst (getBook (str "1") w) = Ok VNull /\
  fst (getBook (str "1") w) <> Ok (VObject Sample.book1).
Proof.
  repeat split; try reflexivity. discriminate.
Qed.

(* ====================================================================== *)
(** ** The id of an updated record *)
(* ====================================================================== *)

(** The properties of [{ ...existing, ...partial }] when both are objects. *)
Lemma obj_get_merge (existing partial : obj) (k : jstring) :
  distinct_keys existing = true -> distinct_keys partial = true ->
  obj_get (spread (spread [] existing) partial) k =
  match obj_get partial k with
  | Some v => Some v
  | None => obj_get existing k
  end.
Proof.
  intros He Hp. rewrite !obj_get_spread.
  rewrite (obj_get_rev partial k Hp), (obj_get_rev existing k He).
  destruct (obj_get partial k); [reflexivity|].
  now destruct (obj_get existing k).
Qed.

(** C6, as the code has it.  When the request fails, a record that
    [updateBook] or [updateReadingList] returns is the stored record of the
    requested id with the properties of the partial record laid over it: its
    [id] is the requested id (also when the partial record carries another
    one), every other property has the value of the partial record when that
    has the property and the stored value otherwise ([updatedAt] apart, for a
    reading list). *)
Theorem update_fallback_keeps_requested_id
    (toISOString : Z -> jstring) (id : jstring) (partial : obj) (w : world) :
  request_fails w = true ->
  distinct_keys partial = true ->
  (forall b, In b (mockBooks w) -> distinct_keys b = true) ->
  (forall l, In l (mockReadingLists w) -> distinct_keys l = true) ->
  (forall v,
     fst (updateBook id partial w) = Ok v ->
     exists existing o,
       find_by_id id (mockBooks w) = Some existing /\
       v = VObject o /\
       obj_get o (str "id") = Some (VString id) /\
       forall k, k <> str "id" ->
         obj_get o k = match obj_get partial k with
                       | Some x => Some x
                       | None => obj_get existing k
                       end) /\
  (forall v,
     fst (updateReadingList toISOString id partial w) = Ok v ->
     exists existing o,
       find_by_id id (mockReadingLists w) = Some existing /\
       v = VObject o /\
       obj_get o (str "id") = Some (VString id) /\
       forall k, k <> str "id" -> k <> str "updatedAt" ->
         obj_get o k = match obj_get partial k with
                       | Some x => Some x
                       | None => obj_get existing k
                       end).
Proof.
  intros Hfails Hpartial Hbooks Hlists. split.
  - intros v. rewrite updateBook_fallback by assumption.
    destruct (find_by_id id (mockBooks w)) as [existing|] eqn:E; [|discriminate].
    cbn [fst]. intros [= <-]. exists existing. eexists.
    split; [reflexivity|]. split; [reflexivity|].
    assert (distinct_keys existing = true) as Hexisting.
    { apply Hbooks. unfold find_by_id in E. now apply find_some in E. }
    split; [apply obj_get_set_same|].
    intros k Hk. rewrite obj_get_set_other by assumption.
    now apply obj_get_merge.
  - intros v.
    destruct (truthy (field partial (str "userId"))) eqn:Hu;
      [|unfold updateReadingList; rewrite Hu; discriminate].
    rewrite updateReadingList_fallback by assumption.
    destruct (find_by_id id (mockReadingLists w)) as [existing|] eqn:E;
      [|discriminate].
    cbn [fst]. intros [= <-]. exists existing. eexists.
    split; [reflexivity|]. split; [reflexivity|].
    assert (distinct_keys existing = true) as Hexisting.
    { apply Hlists. unfold find_by_id in E. now apply find_some in E. }
    split.
    + rewrite obj_get_set_other by discriminate. apply obj_get_set_same.
    + intros k Hk Hk'. rewrite !obj_get_set_other by assumption.
      now apply obj_get_merge.
Qed.

Lemma update_fallback_keeps_requested_id_witness :
  let w := Sample.world_of [] in
  let partial := [ (str "title", VString (str "A New Title"));
                   (str "id", VString (str "99")) ] in
  exists o,
    fst (updateBook (str "1") partial w) = Ok (VObject o) /\
    obj_get o (str "id") = Some (VString (str "1")) /\
    obj_get o (str "title") = Some (VString (str "A New Title")) /\
    obj_get o (str "author") = Some (VString (str "Matt Haig")).
Proof.
  assert (forall b, In b [Sample.book1] -> distinct_keys b = true) as Hbooks.
  { intros b [<-|[]]. reflexivity. }
  assert (forall l, In l [Sample.list1] -> distinct_keys l = true) as Hlists.
  { intros l [<-|[]]. reflexivity. }
  destruct (update_fallback_keeps_requested_id Sample.iso (str "1")
              [ (str "title", VString (str "A New Title"));
                (str "id", VString (str "99")) ]
              (Sample.world_of []) eq_refl eq_refl Hbooks Hlists) as [Hbook _].
  destruct (Hbook _ eq_refl) as (existing & o & Hfound & Hv & Hid & Hother).
  exists o. injection Hfound as <-.
  split; [rewrite <- Hv; reflexivity|]. split; [exact Hid|].
  split; [apply (Hother (str "title")) | apply (Hother (str "author"))];
    discriminate.
Defined.

(** C6 as stated fails on an answered request: [updateBook] asked to update
    the book 1 and answered with [{"id":"2","title":"Project Hail Mary"}]
    returns that object as it is, with the id 2. *)
Lemma updateBook_returns_server_record :
  let w := Sample.world_of [Response 200 Sample.book2_text] in
  let partial := [ (str "title", VString (str "A New Title")) ] in
  JSON_parse Sample.book2_text = Some (VObject Sample.book2) /\
  fst (updateBook (str "1") partial w) = Ok (VObject Sample.book2) /\
  prop_of (VObject Sample.book2) (str "id") <> VString (str "1").
Proof.
  repeat split; try reflexivity. discriminate.
Qed.

(* ====================================================================== *)
(** ** The errors the layer signals *)
(* ====================================================================== *)

Lemma resolves_run_call (toISOString : Z -> jstring) (c : call) :
  is_update c = false -> resolves (run_call toISOString c).
Proof.
  destruct c; simpl; try discriminate; intros _;
    unfold getBooks, getBook, getReadingLists, createReadingList,
      deleteReadingList, createBook, deleteBook, getRecommendations,
      getReviews, createReview, testApiConnection, checkReadingListEndpoints;
    settle_walk.
Qed.

(** C1, as the code has it.  When its request fails, [deleteReadingList]
    (and [deleteBook]) resolves for every id, also one the mock store does
    not hold: the fallback does not read the store, the request is all the
    operation leaves in the trace.  Every operation other than the two
    updates always resolves.  [updateReadingList] is rejected with "userId
    is required to update reading list", before any request, when the
    partial list has no truthy [userId]. *)
Theorem delete_fallback_never_fails (toISOString : Z -> jstring) :
  (forall id userId w,
     request_fails w = true ->
     deleteReadingList id userId w
     = (Ok VUndefined,
        after_fetch w DELETE
          (API_BASE_URL ++ str "/reading-lists/" ++ id ++ str "?userId=" ++ userId)
          None)) /\
  (forall id w,
     request_fails w = true ->
     deleteBook id w
     = (Ok VUndefined,
        after_fetch w DELETE (API_BASE_URL ++ str "/books/" ++ id) None)) /\
  (forall c w,
     is_update c = false -> exists v, fst (run_call toISOString c w) = Ok v) /\
  (forall id list w,
     truthy (field list (str "userId")) = false ->
     updateReadingList toISOString id list w
     = (Throw (Error (str "userId is required to update reading list")), w)).
Proof.
  repeat split.
  - intros. now apply deleteReadingList_fallback.
  - intros. now apply deleteBook_fallback.
  - intros c w H. now apply resolves_run_call.
  - intros id list w H. unfold updateReadingList. now rewrite H.
Qed.

Lemma delete_fallback_never_fails_witness :
  let w := Sample.world_of [NetworkDown] in
  find_by_id (str "999") (mockReadingLists w) = None /\
  fst (deleteReadingList (str "999") (str "1") w) = Ok VUndefined.
Proof.
  split; [reflexivity|].
  rewrite (proj1 (delete_fallback_never_fails Sample.iso)
             (str "999") (str "1") (Sample.world_of [NetworkDown]) eq_refl).
  reflexivity.
Defined.

(** C1 as stated fails for [deleteReadingList]: the network is down, the
    mock store has no reading list with the id 999, and the operation
    resolves; no error reaches the caller. *)
Lemma deleteReadingList_absent_id_resolves :
  let w := Sample.world_of [NetworkDown] in
  request_fails w = true /\
  find_by_id (str "999") (mockReadingLists w) = None /\
  fst (deleteReadingList (str "999") (str "1") w) = Ok VUndefined /\
  (forall e, fst (deleteReadingList (str "999") (str "1") w) <> Throw e).
Proof.
  repeat split; try reflexivity. intros e. discriminate.
Qed.

(* ====================================================================== *)
(** ** Create, update, get on the fallback path *)
(* ====================================================================== *)

Lemma obj_get_copy (o : obj) (k : jstring) :
  distinct_keys o = true -> obj_get (spread [] o) k = obj_get o k.
Proof.
  intros H. rewrite obj_get_spread, (obj_get_rev o k H).
  now destruct (obj_get o k).
Qed.

(** C3, as the code has it.  When the requests fail:
    - [createReadingList] resolves to a record with the properties it was
      given and with the clock's reading, in decimal, for [id]; the mock
      store is as it was, the new record is not in it;
    - [updateReadingList], for an id the mock store holds, resolves to a
      record whose [id] is the requested id and whose properties named in the
      update ([name], [description], [bookIds], ...) have the values of the
      update;
    - [updateReadingList], for an id the mock store does not hold, returns
      no record, the id of a list just created included unless the store
      held that id before;
    - [getReadingLists] resolves to the mock collection. *)
Theorem fallback_create_update_get
    (toISOString : Z -> jstring) (w : world) :
  request_fails w = true ->
  (forall list,
     distinct_keys list = true ->
     exists o,
       fst (createReadingList toISOString list w) = Ok (VObject o) /\
       obj_get o (str "id") = Some (VString (decimal (clock w (ticks w)))) /\
       (forall k, k <> str "id" -> k <> str "createdAt" -> k <> str "updatedAt" ->
          obj_get o k = obj_get list k) /\
       mockReadingLists (snd (createReadingList toISOString list w))
       = mockReadingLists w) /\
  (forall id list existing,
     truthy (field list (str "userId")) = true ->
     distinct_keys list = true ->
     find_by_id id (mockReadingLists w) = Some existing ->
     exists o,
       fst (updateReadingList toISOString id list w) = Ok (VObject o) /\
       obj_get o (str "id") = Some (VString id) /\
       (forall k x, k <> str "id" -> k <> str "updatedAt" ->
          obj_get list k = Some x -> obj_get o k = Some x)) /\
  (forall id list,
     find_by_id id (mockReadingLists w) = None ->
     forall v, fst (updateReadingList toISOString id list w) <> Ok v) /\
  fst (getReadingLists w) = Ok (VArray (map VObject (mockReadingLists w))).
Proof.
  intros Hfails. split; [|split; [|split]].
  - intros list Hlist. rewrite createReadingList_fallback by assumption.
    eexists. split; [reflexivity|]. split; [|split; [|reflexivity]].
    + rewrite !obj_get_set_other by discriminate. apply obj_get_set_same.
    + intros k H1 H2 H3. rewrite !obj_get_set_other by assumption.
      now apply obj_get_copy.
  - intros id list existing Hu Hlist Hfound.
    rewrite updateReadingList_fallback by assumption. rewrite Hfound.
    eexists. split; [reflexivity|]. split.
    + rewrite obj_get_set_other by discriminate. apply obj_get_set_same.
    + intros k x H1 H2 Hx. rewrite !obj_get_set_other by assumption.
      rewrite obj_get_spread, (obj_get_rev list k Hlist), Hx. reflexivity.
  - intros id list Hnone v.
    destruct (truthy (field list (str "userId"))) eqn:Hu.
    + rewrite updateReadingList_fallback by assumption. rewrite Hnone.
      discriminate.
    + unfold updateReadingList. rewrite Hu. discriminate.
  - now rewrite getReadingLists_fallback.
Qed.

Lemma fallback_create_update_get_witness :
  let w := Sample.world_of [] in
  let list := [ (str "userId", VString (str "1"));
                (str "name", VString (str "Winter Reading")) ] in
  exists o,
    fst (updateReadingList Sample.iso (str "1") list w) = Ok (VObject o) /\
    obj_get o (str "id") = Some (VString (str "1")) /\
    obj_get o (str "name") = Some (VString (str "Winter Reading")).
Proof.
  destruct (fallback_create_update_get Sample.iso (Sample.world_of []) eq_refl)
    as (_ & Hupdate & _).
  destruct (Hupdate (str "1")
              [ (str "userId", VString (str "1"));
                (str "name", VString (str "Winter Reading")) ]
              Sample.list1 eq_refl eq_refl eq_refl) as (o & Hres & Hid & Hfields).
  exists o. split; [exact Hres|]. split; [exact Hid|].
  apply Hfields; [discriminate | discriminate | reflexivity].
Defined.

(** C3 as stated fails: with the network down, a list is created, updated
    under the id it was created with, and the lists are read.  The update
    finds no list with that id in the mock store and returns nothing (its
    promise stays pending), and the lists read are the mock ones: the list
    created and updated is not among them. *)
Lemma create_update_get_loses_record :
  let w := Sample.world_of [] in
  let created := [ (str "userId", VString (str "test-user-123"));
                   (str "name", VString (str "Winter Reading"));
                   (str "description", VString (str "notes"));
                   (str "bookIds", VArray []) ] in
  let update := [ (str "name", VString (str "Spring Reading"));
                  (str "userId", VString (str "test-user-123")) ] in
  fst (run_calls Sample.iso
         [ CallCreateReadingList created;
           CallUpdateReadingList (str "1700000000000") update;
           CallGetReadingLists ] w)
  = [ Ok (VObject
            (created ++
             [ (str "id", VString (str "1700000000000"));
               (str "createdAt", VString (str "T1700000000000"));
               (str "updatedAt", VString (str "T1700000000000")) ]));
      Hang (Error (str "Reading list 1700000000000 not found"));
      Ok (VArray [VObject Sample.list1]) ].
Proof.
  vm_compute. reflexivity.
Qed.


(* ====================================================================== *)
(** ** One request for each call *)
(* ====================================================================== *)

Lemma silent_ret {A} (a : A) : silent (ret a).
Proof. intros w. reflexivity. Qed.

Lemma silent_throw {A} (e : exn) : silent (@throw A e).
Proof. intros w. reflexivity. Qed.

Lemma silent_bind {A B} (m : M A) (k : A -> M B) :
  silent m -> (forall a, silent (k a)) -> silent (bind m k).
Proof.
  intros Hm Hk w. unfold bind. specialize (Hm w).
  destruct (m w) as [[a|e|e] w1]; simpl in *; subst; auto. apply Hk.
Qed.

Lemma silent_check_ok response : silent (check_ok response).
Proof.
  unfold check_ok. destruct (negb (response_ok response));
    [apply silent_throw | apply silent_ret].
Qed.

Lemma silent_JSON_parse_or_throw text : silent (JSON_parse_or_throw text).
Proof.
  unfold JSON_parse_or_throw. destruct (JSON_parse text);
    [apply silent_ret | apply silent_throw].
Qed.

Lemma silent_response_json response : silent (response_json response).
Proof. apply silent_JSON_parse_or_throw. Qed.

Lemma silent_get_prop v k : silent (get_prop v k).
Proof.
  unfold get_prop. destruct (nullish v); [apply silent_throw | apply silent_ret].
Qed.

Lemma silent_template v : silent (template v).
Proof.
  unfold template. destruct (to_string_throws v);
    [apply silent_throw | apply silent_ret].
Qed.

Lemma quiet_of_silent {A} (m : M A) : silent m -> quiet m.
Proof. intros H w. now rewrite H. Qed.

Lemma quiet_ret {A} (a : A) : quiet (ret a).
Proof. apply quiet_of_silent, silent_ret. Qed.

Lemma quiet_throw {A} (e : exn) : quiet (@throw A e).
Proof. apply quiet_of_silent, silent_throw. Qed.

Lemma quiet_Date_now : quiet Date_now.
Proof. intros w. split; reflexivity. Qed.

Lemma quiet_bind {A B} (m : M A) (k : A -> M B) :
  quiet m -> (forall a, quiet (k a)) -> quiet (bind m k).
Proof.
  intros Hm Hk w. unfold bind. destruct (Hm w) as [Hr Ht].
  destruct (m w) as [[a|e|e] w1]; simpl in *; auto.
  destruct (Hk a w1) as [Hr' Ht']. split; congruence.
Qed.

Lemma quiet_try_catch {A} (m : M A) (h : exn -> M A) :
  quiet m -> (forall e, quiet (h e)) -> quiet (try_catch m h).
Proof.
  intros Hm Hh w. unfold try_catch. destruct (Hm w) as [Hr Ht].
  destruct (m w) as [[a|e|e] w1]; simpl in *; auto.
  destruct (Hh e w1) as [Hr' Ht']. split; congruence.
Qed.

Lemma quiet_set_timeout {A} (ms : Z) (body : M A) :
  quiet body -> quiet (set_timeout ms body).
Proof.
  intros Hb w. unfold set_timeout. specialize (Hb w).
  destruct (body w) as [[a|e|e] w1]; simpl in *; auto.
Qed.

Create HintDb quiet discriminated.

#[export] Hint Resolve silent_ret silent_throw silent_check_ok
  silent_JSON_parse_or_throw silent_response_json silent_get_prop
  quiet_ret quiet_throw quiet_Date_now : quiet.

#[export] Hint Resolve silent_template : quiet.

Ltac quiet_step :=
  match goal with
  | |- silent (bind _ _) => apply silent_bind; [|intros]
  | |- quiet (bind _ _) => apply quiet_bind; [|intros]
  | |- quiet (try_catch _ _) => apply quiet_try_catch; [|intros]
  | |- quiet (set_timeout _ _) => apply quiet_set_timeout
  | |- _ (if ?c then _ else _) => destruct c
  | |- _ (match ?x with _ => _ end) => destruct x
  | |- _ => cbv zeta; solve [auto with quiet]
  end.

Ltac quiet_walk := repeat quiet_step.

Lemma reads_once_of_quiet {A} (m : M A) : quiet m -> reads_once m.
Proof.
  intros H w. destruct (H w) as [Hr Ht]. split; [exact Hr|].
  exists []. split; [now rewrite app_nil_r | now left].
Qed.

Lemma reads_once_mockBooks {A} (k : list obj -> M A) :
  (forall books, quiet (k books)) -> reads_once (bind read_mockBooks k).
Proof.
  intros Hk w. unfold bind, read_mockBooks, emit. cbn.
  destruct (Hk (mockBooks w) (logged w EReadMockBooks)) as [Hr Ht].
  split; [exact Hr|]. exists [EReadMockBooks]. split; [exact Ht | right; now left].
Qed.

Lemma reads_once_mockReadingLists {A} (k : list obj -> M A) :
  (forall lists, quiet (k lists)) -> reads_once (bind read_mockReadingLists k).
Proof.
  intros Hk w. unfold bind, read_mockReadingLists, emit. cbn.
  destruct (Hk (mockReadingLists w) (logged w EReadMockReadingLists)) as [Hr Ht].
  split; [exact Hr|]. exists [EReadMockReadingLists].
  split; [exact Ht | right; now right].
Qed.

Lemma reads_once_set_timeout {A} (ms : Z) (body : M A) :
  reads_once body -> reads_once (set_timeout ms body).
Proof.
  intros Hb w. unfold set_timeout. specialize (Hb w).
  destruct (body w) as [[a|e|e] w1]; simpl in *; auto.
Qed.

(** What a [try] block that starts with its request comes to: its value,
    with the request as its only effect, or the [catch] block run from
    there. *)
Lemma try_fetch_cases {A} m url payload
    (k : Z * jstring -> M A) (h : exn -> M A) (w : world) :
  (forall response, silent (k response)) ->
  (forall response, no_hang (k response)) ->
  (exists a,
     try_catch (bind (fetch m url payload) k) h w
     = (Ok a, after_fetch w m url payload)) \/
  (exists e,
     try_catch (bind (fetch m url payload) k) h w
     = h e (after_fetch w m url payload)).
Proof.
  intros Hs Hn. unfold try_catch, bind. rewrite fetch_reply.
  destruct (replies w) as [|[|status text] rest];
    try (right; exists NetworkError; reflexivity).
  specialize (Hs (status, text) (after_fetch w m url payload)).
  specialize (Hn (status, text) (after_fetch w m url payload)).
  destruct (k (status, text) (after_fetch w m url payload)) as [[a|e|e] w1];
    simpl in *; subst.
  - left. now exists a.
  - right. now exists e.
  - now destruct (Hn e).
Qed.

Lemma one_request_try_fetch {A} m url payload
    (k : Z * jstring -> M A) (h : exn -> M A) :
  (forall response, silent (k response)) ->
  (forall response, no_hang (k response)) ->
  (forall e, reads_once (h e)) ->
  one_request (try_catch (bind (fetch m url payload) k) h).
Proof.
  intros Hs Hn Hh w. right.
  destruct (try_fetch_cases m url payload k h w Hs Hn) as [[a ->]|[e ->]].
  - split; [reflexivity|]. exists m, url, payload, [].
    split; [reflexivity | now left].
  - destruct (Hh e (after_fetch w m url payload)) as (Hr & evs & Ht & Hev).
    split; [exact Hr|]. exists m, url, payload, evs.
    split; [|exact Hev]. rewrite Ht. cbn. now rewrite <- app_assoc.
Qed.

Lemma one_request_of_quiet {A} (m : M A) : quiet m -> one_request m.
Proof. intros H w. left. apply H. Qed.

Lemma one_request_then_quiet {A B} (m : M A) (k : A -> M B) :
  one_request m -> (forall a, quiet (k a)) -> one_request (bind m k).
Proof.
  intros Hm Hk w. unfold bind. specialize (Hm w).
  destruct (m w) as [[a|e|e] w1]; simpl in *; auto.
  destruct (Hk a w1) as [Hr Ht]. rewrite Hr, Ht. exact Hm.
Qed.

Ltac one_request_try :=
  apply one_request_try_fetch; intros;
  [ quiet_walk
  | settle_walk
  | first [ apply reads_once_set_timeout;
            first [ apply reads_once_mockBooks; intros; quiet_walk
                  | apply reads_once_mockReadingLists; intros; quiet_walk ]
          | apply reads_once_mockBooks; intros; quiet_walk
          | apply reads_once_mockReadingLists; intros; quiet_walk
          | apply reads_once_of_quiet; quiet_walk ] ].

Lemma one_request_run_call (toISOString : Z -> jstring) (c : call) :
  one_request (run_call toISOString c).
Proof.
  destruct c; simpl.
  - unfold getBooks. one_request_try.
  - unfold getBook. one_request_try.
  - unfold getReadingLists. one_request_try.
  - unfold createReadingList. one_request_try.
  - unfold updateReadingList.
    destruct (negb (truthy (field list (str "userId")))).
    + apply one_request_of_quiet. quiet_walk.
    + one_request_try.
  - unfold deleteReadingList. one_request_try.
  - unfold createBook. one_request_try.
  - unfold updateBook. one_request_try.
  - unfold deleteBook. one_request_try.
  - unfold getRecommendations. apply one_request_of_quiet. quiet_walk.
  - unfold getReviews. one_request_try.
  - unfold createReview. one_request_try.
  - unfold testApiConnection. one_request_try.
  - unfold checkReadingListEndpoints.
    apply one_request_then_quiet; [one_request_try | intros; quiet_walk].
Qed.

(** X1.  Every call of the layer sends at most one request and takes at most one
    reply: no operation retries.  The request comes before anything else,
    and the mock store is read at most once, after it. *)
Theorem layer_sends_one_request_at_most
    (toISOString : Z -> jstring) (c : call) (w : world) :
  (replies (snd (run_call toISOString c w)) = replies w /\
   new_events w (snd (run_call toISOString c w)) = []) \/
  (replies (snd (run_call toISOString c w)) = tl (replies w) /\
   exists method url payload evs,
     new_events w (snd (run_call toISOString c w))
     = EFetch method url payload :: evs /\
     (evs = [] \/ evs = [EReadMockBooks] \/ evs = [EReadMockReadingLists])).
Proof.
  destruct (one_request_run_call toISOString c w)
    as [[Hr Ht]|(Hr & m & url & payload & evs & Ht & Hev)].
  - left. split; [exact Hr|]. apply new_events_app. now rewrite app_nil_r.
  - right. split; [exact Hr|]. exists m, url, payload, evs.
    split; [now apply new_events_app | exact Hev].
Qed.

(* ====================================================================== *)
(** ** Bodies that cannot be read *)
(* ====================================================================== *)

Section UnreadableBody.

Variable toISOString : Z -> jstring.
Variables (w : world) (status : Z) (text : jstring) (rest : list reply).

Hypothesis Hreply : replies w = Response status text :: rest.
Hypothesis Hok : (200 <=? status) && (status <=? 299) = true.

(** The three ways the body of an answered request stops the [try] block:
    it is no JSON text (the empty body among them); it is [null]; it is an
    envelope whose inner string is no JSON text. *)
Hypothesis Hunreadable :
  JSON_parse text = None \/
  JSON_parse text = Some VNull \/
  exists result s,
    JSON_parse text = Some result /\
    prop_of result (str "body") = VString s /\ s <> [] /\
    JSON_parse s = None.

Ltac on_both_sides :=
  unfold try_catch;
  rewrite (answered_request _ _ _ _ w status text rest Hreply Hok);
  rewrite (failing_request _ _ _ _ (network_down_now w) eq_refl);
  unfold response_json, JSON_parse_or_throw, bind, get_prop, ret, throw;
  cbn [fst snd].

Ltac unreadable :=
  on_both_sides;
  destruct Hunreadable as [Hnone|[Hnull|(result & s & Hjson & Hbody & Hs & Hinner)]];
  [ rewrite Hnone; reflexivity
  | rewrite Hnull; reflexivity
  | rewrite Hjson;
    assert (nullish result = false) as -> by (now destruct result);
    rewrite Hbody;
    assert (is_lambda_body (VString s) = true) as -> by (now destruct s);
    cbn [string_of]; rewrite Hinner; reflexivity ].

Lemma getBooks_unreadable : fst (getBooks w) = fst (getBooks (network_down_now w)).
Proof. unfold getBooks. unreadable. Qed.

Lemma getReadingLists_unreadable :
  fst (getReadingLists w) = fst (getReadingLists (network_down_now w)).
Proof. unfold getReadingLists. unreadable. Qed.

Lemma getReviews_unreadable bookId :
  fst (getReviews bookId w) = fst (getReviews bookId (network_down_now w)).
Proof. unfold getReviews. unreadable. Qed.

Lemma createReadingList_unreadable list :
  fst (createReadingList toISOString list w)
  = fst (createReadingList toISOString list (network_down_now w)).
Proof. unfold createReadingList. unreadable. Qed.

Lemma createBook_unreadable book :
  fst (createBook book w) = fst (createBook book (network_down_now w)).
Proof. unfold createBook. unreadable. Qed.

Lemma createReview_unreadable review :
  fst (createReview toISOString review w)
  = fst (createReview toISOString review (network_down_now w)).
Proof. unfold createReview. unreadable. Qed.

Lemma updateBook_unreadable id book :
  fst (updateBook id book w) = fst (updateBook id book (network_down_now w)).
Proof. unfold updateBook. unreadable. Qed.

Lemma updateReadingList_unreadable id list :
  fst (updateReadingList toISOString id list w)
  = fst (updateReadingList toISOString id list (network_down_now w)).
Proof.
  unfold updateReadingList.
  destruct (negb (truthy (field list (str "userId")))); [reflexivity|].
  unreadable.
Qed.

(** The deletes read the body and drop it: [null] and an envelope are fine
    with them, and they resolve on every path. *)
Lemma deleteReadingList_unreadable id userId :
  fst (deleteReadingList id userId w)
  = fst (deleteReadingList id userId (network_down_now w)).
Proof.
  unfold deleteReadingList. on_both_sides.
  destruct (JSON_parse text); reflexivity.
Qed.

Lemma deleteBook_unreadable id :
  fst (deleteBook id w) = fst (deleteBook id (network_down_now w)).
Proof.
  unfold deleteBook. on_both_sides.
  destruct (JSON_parse text); reflexivity.
Qed.

Lemma getBook_unreadable id :
  fst (getBook id w) = fst (getBook id (network_down_now w)).
Proof.
  rewrite (getBook_fallback id (network_down_now w) eq_refl eq_refl).
  unfold getBook, try_catch, bind. rewrite fetch_reply, Hreply. cbn [fst].
  rewrite (status_2xx_not_404 status Hok).
  unfold check_ok, response_ok, response_json, JSON_parse_or_throw, bind,
    get_prop, ret, throw.
  cbn [fst snd]. rewrite Hok. cbn [negb]. unfold found.
  destruct Hunreadable as [Hnone|[Hnull|(result & s & Hjson & Hbody & Hs & Hinner)]].
  - rewrite Hnone. cbn. now destruct (find_by_id id (mockBooks w)).
  - rewrite Hnull. cbn. now destruct (find_by_id id (mockBooks w)).
  - rewrite Hjson.
    assert (nullish result = false) as -> by (now destruct result).
    rewrite Hbody.
    assert (is_lambda_body (VString s) = true) as -> by (now destruct s).
    cbn [string_of]. rewrite Hinner. cbn.
    now destruct (find_by_id id (mockBooks w)).
Qed.

End UnreadableBody.

(** X2.  A 2xx response whose body cannot be read is handled as a failed
    request.  When the body is no JSON text (an empty body, as a 204 has,
    is none), or is [null], or is an envelope whose inner string is no JSON
    text, every operation that reads the body ends as it does when the
    network is down: the reads with their mock data, the creations with a
    made-up record, the deletes resolved, the updates as their fallback
    does. *)
Theorem unreadable_body_is_a_failure
    (toISOString : Z -> jstring) (w : world) (text : jstring) (c : call) :
  answered w text ->
  (JSON_parse text = None \/
   JSON_parse text = Some VNull \/
   exists result s,
     JSON_parse text = Some result /\
     prop_of result (str "body") = VString s /\ s <> [] /\
     JSON_parse s = None) ->
  reads_body c = true ->
  fst (run_call toISOString c w)
  = fst (run_call toISOString c (network_down_now w)).
Proof.
  intros (status & rest & Hreply & Hok) Hbad Hc.
  destruct c; try discriminate; simpl.
  - eapply getBooks_unreadable; eassumption.
  - eapply getBook_unreadable; eassumption.
  - eapply getReadingLists_unreadable; eassumption.
  - eapply createReadingList_unreadable; eassumption.
  - eapply updateReadingList_unreadable; eassumption.
  - eapply deleteReadingList_unreadable; eassumption.
  - eapply createBook_unreadable; eassumption.
  - eapply updateBook_unreadable; eassumption.
  - eapply deleteBook_unreadable; eassumption.
  - eapply getReviews_unreadable; eassumption.
  - eapply createReview_unreadable; eassumption.
Qed.

Lemma unreadable_body_is_a_failure_witness :
  let w := Sample.world_of [Response 204 []] in
  fst (getBooks w) = Ok (VArray [VObject Sample.book1]) /\
  fst (deleteBook (str "1") w) = Ok VUndefined.
Proof.
  assert (answered (Sample.world_of [Response 204 []]) []) as Hanswered.
  { exists 204, []. split; reflexivity. }
  split.
  - etransitivity;
      [ exact (unreadable_body_is_a_failure Sample.iso
                 (Sample.world_of [Response 204 []]) [] CallGetBooks
                 Hanswered (or_introl eq_refl) eq_refl)
      | reflexivity ].
  - etransitivity;
      [ exact (unreadable_body_is_a_failure Sample.iso
                 (Sample.world_of [Response 204 []]) [] (CallDeleteBook (str "1"))
                 Hanswered (or_introl eq_refl) eq_refl)
      | reflexivity ].
Defined.

(* ====================================================================== *)
(** ** What the writes make of a plain body *)
(* ====================================================================== *)

Section WriteShapes.

Variable toISOString : Z -> jstring.
Variables (w : world) (status : Z) (text : jstring) (rest : list reply).
Variable result : value.

Hypothesis Hreply : replies w = Response status text :: rest.
Hypothesis Hok : (200 <=? status) && (status <=? 299) = true.
Hypothesis Hjson : JSON_parse text = Some result.
Hypothesis Hvalue : nullish result = false.
Hypothesis Hplain : is_lambda_body (prop_of result (str "body")) = false.

Ltac read_plain_body :=
  unfold try_catch;
  rewrite (answered_request _ _ _ _ w status text rest Hreply Hok);
  unfold response_json, JSON_parse_or_throw, bind, get_prop, ret, throw;
  cbn [fst snd]; rewrite Hjson, Hvalue, Hplain.

Lemma createBook_plain book : fst (createBook book w) = Ok result.
Proof. unfold createBook. read_plain_body. reflexivity. Qed.

Lemma updateBook_plain id book : fst (updateBook id book w) = Ok result.
Proof. unfold updateBook. read_plain_body. reflexivity. Qed.

Lemma createReview_plain review :
  fst (createReview toISOString review w) = Ok result.
Proof. unfold createReview. read_plain_body. reflexivity. Qed.

Lemma createReadingList_plain list :
  fst (createReadingList toISOString list w)
  = Ok (if truthy (js_and (prop_of result (str "success"))
                          (prop_of result (str "list")))
        then prop_of result (str "list") else result).
Proof.
  unfold createReadingList. read_plain_body.
  now destruct (truthy (js_and _ _)).
Qed.

Lemma updateReadingList_plain id list :
  truthy (field list (str "userId")) = true ->
  fst (updateReadingList toISOString id list w)
  = Ok (if truthy (js_and (prop_of result (str "success"))
                          (prop_of result (str "list")))
        then prop_of result (str "list") else result).
Proof.
  intros Hu. unfold updateReadingList. rewrite Hu. cbn [negb].
  read_plain_body. now destruct (truthy (js_and _ _)).
Qed.

End WriteShapes.

(** X3.  On a 2xx response whose body is a value other than [null] and no
    envelope, [createReadingList] and [updateReadingList] unwrap a
    [{success, list}] wrapper (both truthy) and return any other body as it
    is; [createBook], [updateBook] and [createReview] have no such branch and
    return the body as it is, a [{success, book}] wrapper included. *)
Theorem writes_return_plain_body
    (toISOString : Z -> jstring) (w : world) (text : jstring) (result : value) :
  answered w text ->
  JSON_parse text = Some result ->
  nullish result = false ->
  is_lambda_body (prop_of result (str "body")) = false ->
  (forall book, fst (createBook book w) = Ok result) /\
  (forall id book, fst (updateBook id book w) = Ok result) /\
  (forall review, fst (createReview toISOString review w) = Ok result) /\
  (forall list,
     fst (createReadingList toISOString list w)
     = Ok (if truthy (js_and (prop_of result (str "success"))
                             (prop_of result (str "list")))
           then prop_of result (str "list") else result)) /\
  (forall id list,
     truthy (field list (str "userId")) = true ->
     fst (updateReadingList toISOString id list w)
     = Ok (if truthy (js_and (prop_of result (str "success"))
                             (prop_of result (str "list")))
           then prop_of result (str "list") else result)).
Proof.
  intros (status & rest & Hreply & Hok) Hjson Hvalue Hplain.
  repeat split; intros.
  - eapply createBook_plain; eassumption.
  - eapply updateBook_plain; eassumption.
  - eapply createReview_plain; eassumption.
  - eapply createReadingList_plain; eassumption.
  - eapply updateReadingList_plain; eassumption.
Qed.

(* ====================================================================== *)
(** ** Updates that never settle *)
(* ====================================================================== *)

(** X4.  The promise of an update stays pending in one case only: the fallback
    ran and the mock store has no record of the requested id; the error
    lost in the timer is the not-found error of that id. *)
Theorem pending_update_means_absent_id
    (toISOString : Z -> jstring) (id : jstring) (partial : obj) (w : world)
    (e : exn) :
  (fst (updateBook id partial w) = Hang e ->
     find_by_id id (mockBooks w) = None /\
     e = Error (str "Book " ++ id ++ str " not found") /\
     In EReadMockBooks (new_events w (snd (updateBook id partial w)))) /\
  (fst (updateReadingList toISOString id partial w) = Hang e ->
     find_by_id id (mockReadingLists w) = None /\
     e = Error (str "Reading list " ++ id ++ str " not found") /\
     In EReadMockReadingLists
        (new_events w (snd (updateReadingList toISOString id partial w)))).
Proof.
  split.
  - unfold updateBook.
    match goal with
    | |- context [try_catch (bind (fetch ?m ?u ?p) ?k) ?h] =>
        destruct (try_fetch_cases m u p k h w) as [[a ->]|[e' ->]];
          [intros; quiet_walk | intros; settle_walk | discriminate |]
    end.
    unfold set_timeout, bind, read_mockBooks, emit. cbn.
    destruct (find_by_id id (mockBooks w)); cbn; [discriminate|].
    intros [= <-]. split; [reflexivity|]. split; [reflexivity|].
    erewrite new_events_app; [|cbn; rewrite <- app_assoc; reflexivity].
    cbn. auto.
  - unfold updateReadingList.
    destruct (negb (truthy (field partial (str "userId")))); [discriminate|].
    match goal with
    | |- context [try_catch (bind (fetch ?m ?u ?p) ?k) ?h] =>
        destruct (try_fetch_cases m u p k h w) as [[a ->]|[e' ->]];
          [intros; quiet_walk | intros; settle_walk | discriminate |]
    end.
    unfold set_timeout, bind, read_mockReadingLists, emit. cbn.
    destruct (find_by_id id (mockReadingLists w)); cbn; [discriminate|].
    intros [= <-]. split; [reflexivity|]. split; [reflexivity|].
    erewrite new_events_app; [|cbn; rewrite <- app_assoc; reflexivity].
    cbn. auto.
Qed.

Lemma pending_update_means_absent_id_witness :
  let w := Sample.world_of [Response 503 (str "Service Unavailable")] in
  fst (updateBook (str "42") [] w)
  = Hang (Error (str "Book 42 not found")) /\
  find_by_id (str "42") (mockBooks w) = None.
Proof.
  split; [reflexivity|].
  apply (proj1 (pending_update_means_absent_id Sample.iso (str "42") []
                  (Sample.world_of [Response 503 (str "Service Unavailable")])
                  (Error (str "Book 42 not found")))).
  reflexivity.
Defined.

(* ====================================================================== *)
(** ** Ids made from the clock *)
(* ====================================================================== *)

Lemma str_inj (a b : string) : str a = str b -> a = b.
Proof.
  revert b. induction a as [|c a IH]; intros [|d b]; simpl; try discriminate.
  - reflexivity.
  - intros [= Hc Hr]. f_equal; [|now apply IH].
    rewrite <- (ascii_N_embedding c), <- (ascii_N_embedding d). now rewrite Hc.
Qed.

Lemma to_int_proper (z : Z) :
  Z.to_int z <> Decimal.Pos Decimal.Nil /\ Z.to_int z <> Decimal.Neg Decimal.Nil.
Proof.
  destruct z as [|p|p]; cbn; split; try discriminate;
    intros [= H]; now apply (Unsigned.to_uint_nonnil p).
Qed.

(** The decimal writing of an integer tells the integer. *)
Lemma decimal_inj (z1 z2 : Z) : decimal z1 = decimal z2 -> z1 = z2.
Proof.
  unfold decimal. intros H. apply str_inj in H.
  apply (f_equal NilZero.int_of_string) in H.
  destruct (to_int_proper z1) as [H1 H1'], (to_int_proper z2) as [H2 H2'].
  rewrite !NilZero.isi in H by assumption.
  injection H as H. apply (f_equal Z.of_int) in H.
  now rewrite !DecimalZ.of_to in H.
Qed.

(** X5.  The record made up when a creation falls back holds the properties it
    was given, the ones the fallback sets itself apart: [id], and
    [createdAt] and [updatedAt] for a reading list, [createdAt] for a review.
    A book given a [createdAt] keeps it. *)
Theorem fallback_creation_keeps_fields
    (toISOString : Z -> jstring) (kind : creation) (record : obj) (w : world) :
  request_fails w = true ->
  distinct_keys record = true ->
  exists o,
    fst (create toISOString kind record w) = Ok (VObject o) /\
    (forall k, ~ In k (stamped kind) -> obj_get o k = obj_get record k) /\
    (forall k, In k (stamped kind) -> exists s, obj_get o k = Some (VString s)).
Proof.
  intros Hf Hd. destruct kind; cbn [create stamped].
  - rewrite createReadingList_fallback by assumption.
    eexists. split; [reflexivity|]. split.
    + intros k Hk. rewrite !obj_get_set_other by (cbn in Hk; intuition).
      now apply obj_get_copy.
    + intros k [<-|[<-|[<-|[]]]]; eexists.
      * rewrite !obj_get_set_other by discriminate. apply obj_get_set_same.
      * rewrite obj_get_set_other by discriminate. apply obj_get_set_same.
      * apply obj_get_set_same.
  - unfold createBook, try_catch. rewrite failing_request by assumption.
    eexists. split; [reflexivity|]. split.
    + intros k Hk. rewrite !obj_get_set_other by (cbn in Hk; intuition).
      now apply obj_get_copy.
    + intros k [<-|[]]; eexists. apply obj_get_set_same.
  - unfold createReview, try_catch. rewrite failing_request by assumption.
    eexists. split; [reflexivity|]. split.
    + intros k Hk. rewrite !obj_get_set_other by (cbn in Hk; intuition).
      now apply obj_get_copy.
    + intros k [<-|[<-|[]]]; eexists.
      * rewrite obj_get_set_other by discriminate. apply obj_get_set_same.
      * apply obj_get_set_same.
Qed.

Lemma fallback_creation_keeps_fields_witness :
  let w := Sample.world_of [NetworkDown] in
  let record := [ (str "title", VString (str "Piranesi"));
                  (str "createdAt", VString (str "2020")) ] in
  exists o,
    fst (createBook record w) = Ok (VObject o) /\
    obj_get o (str "title") = Some (VString (str "Piranesi")) /\
    obj_get o (str "createdAt") = Some (VString (str "2020")).
Proof.
  destruct (fallback_creation_keeps_fields Sample.iso NewBook
              [ (str "title", VString (str "Piranesi"));
                (str "createdAt", VString (str "2020")) ]
              (Sample.world_of [NetworkDown]) eq_refl eq_refl)
    as (o & Hres & Hkeep & _).
  exists o. split; [exact Hres|].
  split; (rewrite Hkeep; [reflexivity|]); cbn; intros [H|[]]; discriminate.
Defined.

(** X6.  The id a creation makes up on its fallback is the clock's reading, in
    decimal: two records made up by any of the creations, in any worlds,
    have the same [id] exactly when the clock read the same millisecond for
    both. *)
Theorem fallback_ids_follow_the_clock
    (toISOString : Z -> jstring) (kind1 kind2 : creation) (r1 r2 : obj)
    (w1 w2 : world) :
  request_fails w1 = true -> request_fails w2 = true ->
  exists o1 o2,
    fst (create toISOString kind1 r1 w1) = Ok (VObject o1) /\
    fst (create toISOString kind2 r2 w2) = Ok (VObject o2) /\
    obj_get o1 (str "id") = Some (VString (decimal (clock w1 (ticks w1)))) /\
    obj_get o2 (str "id") = Some (VString (decimal (clock w2 (ticks w2)))) /\
    (obj_get o1 (str "id") = obj_get o2 (str "id") <->
     clock w1 (ticks w1) = clock w2 (ticks w2)).
Proof.
  assert (forall kind r w,
            request_fails w = true ->
            exists o, fst (create toISOString kind r w) = Ok (VObject o) /\
                      obj_get o (str "id")
                      = Some (VString (decimal (clock w (ticks w))))) as Hmake.
  { intros kind r w Hf. destruct kind; cbn [create].
    - rewrite createReadingList_fallback by assumption.
      eexists. split; [reflexivity|].
      rewrite !obj_get_set_other by discriminate. apply obj_get_set_same.
    - unfold createBook, try_catch. rewrite failing_request by assumption.
      eexists. split; [reflexivity|]. apply obj_get_set_same.
    - unfold createReview, try_catch. rewrite failing_request by assumption.
      eexists. split; [reflexivity|].
      rewrite obj_get_set_other by discriminate. apply obj_get_set_same. }
  intros Hf1 Hf2.
  destruct (Hmake kind1 r1 w1 Hf1) as (o1 & Hr1 & Hid1).
  destruct (Hmake kind2 r2 w2 Hf2) as (o2 & Hr2 & Hid2).
  exists o1, o2. repeat split; try assumption.
  - rewrite Hid1, Hid2. intros [= H]. now apply decimal_inj.
  - rewrite Hid1, Hid2. now intros ->.
Qed.

Lemma fallback_ids_follow_the_clock_witness :
  let w := Sample.world_of [] in
  exists o1 o2,
    fst (createReadingList Sample.iso [(str "name", VString (str "A"))] w)
    = Ok (VObject o1) /\
    fst (createBook [(str "title", VString (str "B"))] w) = Ok (VObject o2) /\
    obj_get o1 (str "id") = obj_get o2 (str "id").
Proof.
  destruct (fallback_ids_follow_the_clock Sample.iso NewReadingList NewBook
              [(str "name", VString (str "A"))] [(str "title", VString (str "B"))]
              (Sample.world_of []) (Sample.world_of [])
              eq_refl eq_refl) as (o1 & o2 & H1 & H2 & _ & _ & Hiff).
  exists o1, o2. split; [exact H1|]. split; [exact H2|].
  apply Hiff. reflexivity.
Defined.

Lemma writes_return_plain_body_witness :
  let w := Sample.world_of [Response 201 Fixture.success_list_text] in
  JSON_parse Fixture.success_list_text
  = Some (VObject [ (str "success", VBool true);
                    (str "list", VObject Fixture.list2) ]) /\
  fst (createReadingList Sample.iso [(str "name", VString (str "Classics"))] w)
  = Ok (VObject Fixture.list2) /\
  fst (createBook [(str "title", VString (str "Classics"))] w)
  = Ok (VObject [ (str "success", VBool true);
                  (str "list", VObject Fixture.list2) ]).
Proof.
  assert (answered (Sample.world_of [Response 201 Fixture.success_list_text])
            Fixture.success_list_text) as Hanswered.
  { exists 201, []. split; reflexivity. }
  destruct (writes_return_plain_body Sample.iso
              (Sample.world_of [Response 201 Fixture.success_list_text])
              Fixture.success_list_text
              (VObject [ (str "success", VBool true);
                         (str "list", VObject Fixture.list2) ])
              Hanswered eq_refl eq_refl eq_refl)
    as (Hbook & _ & _ & Hlist & _).
  split; [reflexivity|]. split; [apply Hlist | apply Hbook].
Defined.

(* ====================================================================== *)
(** ** The two probes *)
(* ====================================================================== *)

(** X7.  [testApiConnection] resolves to [true] exactly when its request is
    answered with a 2xx status, whatever the body, and to [false] otherwise;
    [checkReadingListEndpoints] reports the same for [get], from a HEAD
    request, and [false] for [post], [put] and [delete], which it does not
    probe.  Each sends one request and reads no mock data. *)
Theorem probes_report_the_status (w : world) :
  testApiConnection w
  = (Ok (VBool (negb (request_fails w))),
     after_fetch w GET (API_BASE_URL ++ str "/books") None) /\
  checkReadingListEndpoints w
  = (Ok (VObject [ (str "get", VBool (negb (request_fails w)));
                   (str "post", VBool false); (str "put", VBool false);
                   (str "delete", VBool false) ]),
     after_fetch w HEAD (API_BASE_URL ++ str "/reading-lists") None).
Proof.
  unfold testApiConnection, checkReadingListEndpoints, try_catch, bind,
    request_fails, response_ok.
  rewrite !fetch_reply.
  destruct (replies w) as [|[|status text] rest]; cbn [fst snd negb];
    rewrite ?negb_involutive; split; reflexivity.
Qed.

(* ====================================================================== *)
(** ** The reading-list page: loading *)
(* ====================================================================== *)

Lemma getReadingLists_resolves (w : world) :
  exists data, getReadingLists w = (Ok data, snd (getReadingLists w)).
Proof.
  destruct (resolves_run_call (fun _ => []) CallGetReadingLists eq_refl w)
    as [data Hdata].
  simpl in Hdata. exists data.
  destruct (getReadingLists w) as [r w1]. simpl in *. now subst.
Qed.

(** A run of [loadLists], from the data the layer gave it. *)
Lemma loadLists_run (p : page) (w : world) :
  exists data p',
    fst (getReadingLists w) = Ok data /\
    loadLists p w = (Ok p', snd (getReadingLists w)) /\
    isLoading p' = false /\
    isModalOpen p' = isModalOpen p /\
    isEditModalOpen p' = isEditModalOpen p /\
    editingList p' = editingList p /\
    newListName p' = newListName p /\
    newListDescription p' = newListDescription p /\
    match data with
    | VArray xs => lists p' = xs /\ error p' = None
    | _ =>
        lists p' = [] /\
        (error p' = Some (str "No data received from server") \/
         error p' = Some (str "Invalid data format from server"))
    end.
Proof.
  destruct (getReadingLists_resolves w) as [data Hrun].
  exists data. unfold loadLists, bind, try_catch. rewrite Hrun. cbn [fst snd].
  destruct data as [| |b|m e|s|xs|o]; cbn [truthy negb];
    try (eexists; repeat split; auto; fail).
  - destruct b; eexists; repeat split; auto.
  - destruct (rounds_to_zero m e); eexists; repeat split; auto.
  - destruct s; eexists; repeat split; auto.
Qed.

(** X9.  [loadLists] always comes to its end with the loading flag down.  What
    the layer gave decides the rest: an array becomes the lists and clears
    the error; anything else empties the lists and sets one of the two
    format errors.  The layer never rejects, so the "Failed to load reading
    lists" of the [catch] block is never shown; when the request fails the
    page shows the mock lists, without an error. *)
Theorem loadLists_outcome (p : page) (w : world) :
  exists data p',
    fst (getReadingLists w) = Ok data /\
    fst (loadLists p w) = Ok p' /\
    isLoading p' = false /\
    error p' <> Some (str "Failed to load reading lists. Please try again.") /\
    match data with
    | VArray xs => lists p' = xs /\ error p' = None
    | _ =>
        lists p' = [] /\
        (error p' = Some (str "No data received from server") \/
         error p' = Some (str "Invalid data format from server"))
    end /\
    (request_fails w = true ->
     lists p' = map VObject (mockReadingLists w) /\ error p' = None).
Proof.
  destruct (loadLists_run p w)
    as (data & p' & Hdata & Hrun & Hloading & _ & _ & _ & _ & _ & Hcases).
  exists data, p'. split; [exact Hdata|]. split; [now rewrite Hrun|].
  split; [exact Hloading|]. split; [|split; [exact Hcases|]].
  - destruct data; destruct Hcases as [_ Herr];
      try (destruct Herr as [-> | ->]; discriminate);
      rewrite Herr; discriminate.
  - intros Hfails. rewrite getReadingLists_fallback in Hdata by assumption.
    cbn in Hdata. injection Hdata as <-. exact Hcases.
Qed.

Lemma loadLists_outcome_witness :
  let w := Sample.world_of [Response 500 (str "Internal Server Error")] in
  exists p',
    fst (loadLists (Fixture.page_of []) w) = Ok p' /\
    lists p' = [VObject Sample.list1] /\ error p' = None.
Proof.
  destruct (loadLists_outcome (Fixture.page_of [])
              (Sample.world_of [Response 500 (str "Internal Server Error")]))
    as (data & p' & _ & Hrun & _ & _ & _ & Hdown).
  exists p'. split; [exact Hrun|]. apply Hdown. reflexivity.
Defined.

(* ====================================================================== *)
(** ** The reading-list page: creating *)
(* ====================================================================== *)

Lemma requests_fail_now (w : world) :
  requests_fail w = true -> request_fails w = true.
Proof.
  unfold requests_fail, request_fails.
  destruct (replies w) as [|[|status text] rest]; cbn; auto.
  intros H. now apply andb_true_iff in H as [H _].
Qed.

Lemma requests_fail_later (w w' : world) :
  requests_fail w = true ->
  replies w' = replies w \/ replies w' = tl (replies w) ->
  requests_fail w' = true.
Proof.
  unfold requests_fail. intros H [-> | ->]; [exact H|].
  destruct (replies w) as [|r rest]; cbn in *; auto.
  now apply andb_true_iff in H as [_ H].
Qed.

(** The trace of a call that starts with a known request. *)
Lemma first_request (toISOString : Z -> jstring) (c : call) (w : world)
    m url payload evs :
  trace (snd (run_call toISOString c w)) = trace w ++ EFetch m url payload :: evs ->
  replies (snd (run_call toISOString c w)) = tl (replies w) /\
  fallback_events evs.
Proof.
  intros Ht.
  destruct (one_request_run_call toISOString c w)
    as [[_ Ht']|(Hr & m' & url' & payload' & evs' & Ht' & Hev)].
  - rewrite Ht' in Ht. rewrite <- (app_nil_r (trace w)) in Ht at 1.
    apply app_inv_head in Ht. discriminate.
  - rewrite Ht' in Ht. apply app_inv_head in Ht. injection Ht as _ _ _ <-.
    now split.
Qed.

Lemma fallback_events_no_error (evs : list event) (e : exn) :
  fallback_events evs -> ~ In (EHandleApiError e) evs.
Proof.
  intros [-> | [-> | ->]]; cbn; intuition discriminate.
Qed.

(** X10.  With a name that is not blank, [handleCreateList] sends the creation
    first, with the owner "test-user-123", the name as typed (not trimmed),
    the description and no books; the creation cannot fail, so the handler
    reports success, never an error, closes the dialog, clears both inputs
    and reloads.  When every request fails, the page ends with the mock
    lists: the list just created is not among the lists shown. *)
Theorem handleCreateList_creates_and_reloads
    (toISOString : Z -> jstring) (p : page) (w : world) :
  trim (newListName p) <> [] ->
  exists p' evs,
    fst (handleCreateList toISOString p w) = Ok p' /\
    isModalOpen p' = false /\
    newListName p' = [] /\ newListDescription p' = [] /\
    isLoading p' = false /\
    new_events w (snd (handleCreateList toISOString p w))
    = EFetch POST (API_BASE_URL ++ str "/reading-lists")
        (Some (VObject [ (str "userId", VString (str "test-user-123"));
                         (str "name", VString (newListName p));
                         (str "description", VString (newListDescription p));
                         (str "bookIds", VArray []) ])) :: evs /\
    In (EShowSuccess (str "Reading list created successfully!")) evs /\
    (forall e, ~ In (EHandleApiError e) evs) /\
    (requests_fail w = true ->
     lists p' = map VObject (mockReadingLists w) /\ error p' = None).
Proof.
  intros Hname. unfold handleCreateList.
  assert (truthy (VString (trim (newListName p))) = true) as ->
    by (cbn; now destruct (trim (newListName p))).
  cbn [negb].
  set (record := [ (str "userId", VString (str "test-user-123"));
                   (str "name", VString (newListName p));
                   (str "description", VString (newListDescription p));
                   (str "bookIds", VArray []) ]).
  pose (c := CallCreateReadingList record).
  destruct (resolves_run_call toISOString c eq_refl w) as [newList Hnew].
  assert (exists evs1,
            trace (snd (run_call toISOString c w))
            = trace w ++ EFetch POST (API_BASE_URL ++ str "/reading-lists")
                           (Some (VObject record)) :: evs1) as [evs1 Ht1].
  { cbn [c run_call]. unfold createReadingList.
    apply request_comes_first; intros; steady_walk. }
  destruct (first_request toISOString c w _ _ _ _ Ht1) as [Hr1 Hev1].
  pose proof (steady_run_call toISOString c w) as (_ & Hstore1 & _ & _).
  cbn [c run_call] in Hnew, Ht1, Hr1, Hstore1.
  unfold try_catch, bind.
  destruct (createReadingList toISOString record w) as [r w1].
  cbn [fst snd] in *. subst r. unfold emit. cbn [fst snd].
  set (w2 := mkWorld _ _ _ _ _ _).
  destruct (loadLists_run
              (setNewListDescription
                 (setNewListName
                    (setIsModalOpen (setLists p (newList :: lists p)) false) [])
                 []) w2)
    as (data & p' & Hdata & Hrun & Hloading & Hmodal & _ & _ & Hn & Hd & Hcases).
  rewrite Hrun. cbn [fst snd].
  pose (c3 := CallGetReadingLists).
  destruct (one_request_run_call toISOString c3 w2)
    as [[_ Ht3]|(_ & m3 & url3 & payload3 & evs3 & Ht3 & Hev3)];
    cbn [c3 run_call] in Ht3.
  - exists p', (evs1 ++ [EShowSuccess (str "Reading list created successfully!")]).
    repeat split; auto.
    + apply new_events_app. rewrite Ht3. subst w2. cbn [trace]. rewrite Ht1.
      now rewrite <- app_assoc.
    + apply in_or_app. right. now left.
    + intros e Hin. apply in_app_or in Hin as [Hin|[Hin|[]]];
        [now apply (fallback_events_no_error evs1 e)|discriminate].
    + match goal with H : requests_fail w = true |- _ => rename H into Hall end.
      assert (request_fails w2 = true) as Hf2.
      { apply requests_fail_now. apply (requests_fail_later w); [exact Hall|].
        right. exact Hr1. }
      rewrite getReadingLists_fallback in Hdata by assumption.
      cbn in Hdata. injection Hdata as <-. destruct Hcases as [-> _].
      now rewrite Hstore1.
    + match goal with H : requests_fail w = true |- _ => rename H into Hall end.
      assert (request_fails w2 = true) as Hf2.
      { apply requests_fail_now. apply (requests_fail_later w); [exact Hall|].
        right. exact Hr1. }
      rewrite getReadingLists_fallback in Hdata by assumption.
      cbn in Hdata. injection Hdata as <-. now destruct Hcases.
  - exists p', (evs1 ++ EShowSuccess (str "Reading list created successfully!")
                  :: EFetch m3 url3 payload3 :: evs3).
    repeat split; auto.
    + apply new_events_app. rewrite Ht3. subst w2. cbn [trace]. rewrite Ht1.
      rewrite <- !app_assoc. reflexivity.
    + apply in_or_app. right. now left.
    + intros e Hin. apply in_app_or in Hin as [Hin|[Hin|[Hin|Hin]]];
        [ now apply (fallback_events_no_error evs1 e) | discriminate
        | discriminate | now apply (fallback_events_no_error evs3 e) ].
    + match goal with H : requests_fail w = true |- _ => rename H into Hall end.
      assert (request_fails w2 = true) as Hf2.
      { apply requests_fail_now. apply (requests_fail_later w); [exact Hall|].
        right. exact Hr1. }
      rewrite getReadingLists_fallback in Hdata by assumption.
      cbn in Hdata. injection Hdata as <-. destruct Hcases as [-> _].
      now rewrite Hstore1.
    + match goal with H : requests_fail w = true |- _ => rename H into Hall end.
      assert (request_fails w2 = true) as Hf2.
      { apply requests_fail_now. apply (requests_fail_later w); [exact Hall|].
        right. exact Hr1. }
      rewrite getReadingLists_fallback in Hdata by assumption.
      cbn in Hdata. injection Hdata as <-. now destruct Hcases.
Qed.

Lemma handleCreateList_creates_and_reloads_witness :
  let p := Sample.page0 (str " Winter Reading ") in
  let w := Sample.world_of [] in
  exists p',
    fst (handleCreateList Sample.iso p w) = Ok p' /\
    lists p' = [VObject Sample.list1] /\ newListName p' = [].
Proof.
  assert (trim (newListName (Sample.page0 (str " Winter Reading "))) <> [])
    as Hblank by discriminate.
  destruct (handleCreateList_creates_and_reloads Sample.iso
              (Sample.page0 (str " Winter Reading ")) (Sample.world_of [])
              Hblank)
    as (p' & evs & Hrun & _ & Hname & _ & _ & _ & _ & _ & Hdown).
  exists p'. split; [exact Hrun|]. split; [|exact Hname].
  apply Hdown. reflexivity.
Defined.

(* ====================================================================== *)
(** ** The reading-list page: editing and deleting *)
(* ====================================================================== *)

Lemma find_list_pure (listId : jstring) (ls : list value) (w : world) :
  (forall l, In l ls -> nullish l = false) ->
  find_list listId ls w = (Ok (find (has_id listId) ls), w).
Proof.
  induction ls as [|l ls IH]; intros Hls; cbn [find_list find]; [reflexivity|].
  unfold bind, get_prop. rewrite (Hls l (or_introl eq_refl)). cbn [ret fst snd].
  unfold has_id. destruct (strict_eq_string (prop_of l (str "id")) listId);
    [reflexivity|].
  apply IH. intros x Hx. apply Hls. now right.
Qed.

Lemma without_list_pure (listId : jstring) (ls : list value) (w : world) :
  (forall l, In l ls -> nullish l = false) ->
  without_list listId ls w
  = (Ok (filter (fun l => negb (has_id listId l)) ls), w).
Proof.
  induction ls as [|l ls IH]; intros Hls; cbn [without_list filter];
    [reflexivity|].
  unfold bind, get_prop. rewrite (Hls l (or_introl eq_refl)). cbn [ret fst snd].
  rewrite IH by (intros x Hx; apply Hls; now right).
  unfold has_id, ret. now destruct (strict_eq_string (prop_of l (str "id")) listId).
Qed.

Lemma has_id_truthy (listId : jstring) (l : value) :
  has_id listId l = true -> truthy l = true.
Proof.
  unfold has_id. destruct l as [| |b|m e|s|xs|o]; cbn; try discriminate; auto.
Qed.

(** A [null] among the elements stops the search at it. *)
Lemma find_list_null (listId : jstring) (before after : list value) (w : world) :
  (forall l, In l before -> nullish l = false /\ has_id listId l = false) ->
  find_list listId (before ++ VNull :: after) w = (Throw TypeError, w).
Proof.
  induction before as [|l ls IH]; intros Hls; cbn [find_list app]; [reflexivity|].
  destruct (Hls l (or_introl eq_refl)) as [Hnn Hid].
  unfold bind, get_prop. rewrite Hnn. cbn [ret fst snd].
  unfold has_id in Hid. rewrite Hid.
  apply IH. intros x Hx. apply Hls. now right.
Qed.

(** X11.  [handleEditList] sends nothing and leaves the world as it is.  With an
    id that no list of the page has, the page is unchanged; otherwise the
    first list of that id becomes the list under edit and the edit dialog
    opens.  A [null] met before such a list makes the handler throw a
    TypeError. *)
Theorem handleEditList_opens_the_list (listId : jstring) (p : page) (w : world) :
  ((forall l, In l (lists p) -> nullish l = false) ->
   handleEditList listId p w
   = (Ok (match find (has_id listId) (lists p) with
          | Some l => setIsEditModalOpen (setEditingList p (Some l)) true
          | None => p
          end), w)) /\
  (forall before after,
     lists p = before ++ VNull :: after ->
     (forall l, In l before -> nullish l = false /\ has_id listId l = false) ->
     handleEditList listId p w = (Throw TypeError, w)).
Proof.
  split.
  - intros Hls. unfold handleEditList, bind.
    rewrite find_list_pure by assumption.
    destruct (find (has_id listId) (lists p)) as [l|] eqn:E; [|reflexivity].
    apply find_some in E as [_ Hid].
    now rewrite (has_id_truthy listId l Hid).
  - intros before after Hp Hls. unfold handleEditList, bind.
    rewrite Hp, find_list_null by assumption. reflexivity.
Qed.

Lemma handleEditList_opens_the_list_witness :
  let p := Fixture.page_of [VObject Sample.list1; VObject Fixture.list2] in
  let w := Sample.world_of [] in
  fst (handleEditList (str "2") p w)
  = Ok (setIsEditModalOpen (setEditingList p (Some (VObject Fixture.list2))) true)
  /\ fst (handleEditList (str "7") p w) = Ok p.
Proof.
  assert (forall l, In l [VObject Sample.list1; VObject Fixture.list2] ->
                    nullish l = false) as Hls.
  { intros l [<-|[<-|[]]]; reflexivity. }
  split.
  - rewrite (proj1 (handleEditList_opens_the_list (str "2")
               (Fixture.page_of [VObject Sample.list1; VObject Fixture.list2])
               (Sample.world_of [])) Hls).
    reflexivity.
  - rewrite (proj1 (handleEditList_opens_the_list (str "7")
               (Fixture.page_of [VObject Sample.list1; VObject Fixture.list2])
               (Sample.world_of [])) Hls).
    reflexivity.
Defined.

(** X12.  [handleDeleteList] does nothing when the user does not confirm.  When
    the page has no list of the given id, it hands the error "List not
    found" to the error handler: no request is sent and the page is
    unchanged. *)
Theorem handleDeleteList_unknown_list
    (ToString : value -> option jstring) (listId : jstring) (p : page)
    (w : world) :
  handleDeleteList ToString false listId p w = (Ok p, w) /\
  ((forall l, In l (lists p) -> nullish l = false) ->
   find (has_id listId) (lists p) = None ->
   handleDeleteList ToString true listId p w
   = (Ok p, logged w (EHandleApiError (Error (str "List not found"))))).
Proof.
  split; [reflexivity|].
  intros Hls Hnone. unfold handleDeleteList, try_catch, bind. cbn [negb].
  rewrite find_list_pure by assumption. rewrite Hnone. reflexivity.
Qed.

Lemma handleDeleteList_unknown_list_witness :
  let p := Fixture.page_of [VObject Sample.list1] in
  let w := Sample.world_of [Response 200 (str "{}")] in
  handleDeleteList Fixture.to_string_of_strings true (str "7") p w
  = (Ok p, logged w (EHandleApiError (Error (str "List not found")))).
Proof.
  apply (proj2 (handleDeleteList_unknown_list Fixture.to_string_of_strings
                  (str "7") (Fixture.page_of [VObject Sample.list1])
                  (Sample.world_of [Response 200 (str "{}")]))).
  - intros l [<-|[]]. reflexivity.
  - reflexivity.
Defined.

(** X13.  Deleting while every request fails.  The handler sends the DELETE with
    the owner of the list, "test-user-123" for a list without one, reports
    success, and reloads; the reload falls back too, so the page ends with
    the mock lists: a mock list that was deleted is on the page again. *)
Theorem handleDeleteList_on_the_fallback
    (ToString : value -> option jstring) (listId : jstring) (p : page)
    (w : world) (l : value) (owner : jstring) :
  requests_fail w = true ->
  (forall x, In x (lists p) -> nullish x = false) ->
  find (has_id listId) (lists p) = Some l ->
  ToString (js_or (prop_of l (str "userId")) (VString (str "test-user-123")))
  = Some owner ->
  exists p',
    fst (handleDeleteList ToString true listId p w) = Ok p' /\
    lists p' = map VObject (mockReadingLists w) /\
    error p' = None /\
    new_events w (snd (handleDeleteList ToString true listId p w))
    = [ EFetch DELETE
          (API_BASE_URL ++ str "/reading-lists/" ++ listId
             ++ str "?userId=" ++ owner) None;
        EShowSuccess (str "Reading list deleted successfully!");
        EFetch GET (API_BASE_URL ++ str "/reading-lists") None;
        EReadMockReadingLists ].
Proof.
  intros Hall Hls Hfound Howner.
  unfold handleDeleteList, try_catch, bind. cbn [negb].
  rewrite find_list_pure by assumption. rewrite Hfound. cbn [fst snd].
  pose proof (find_some _ _ Hfound) as [Hin Hid].
  rewrite (has_id_truthy listId l Hid). cbn [negb].
  unfold get_prop. rewrite (Hls l Hin). cbn [ret fst snd].
  unfold to_string. rewrite Howner. cbn [ret fst snd].
  rewrite deleteReadingList_fallback by now apply requests_fail_now.
  cbn [fst snd].
  rewrite without_list_pure by assumption. cbn [fst snd].
  unfold emit. cbn [fst snd].
  set (w2 := mkWorld _ _ _ _ _ _).
  assert (request_fails w2 = true) as Hf2.
  { apply requests_fail_now. apply (requests_fail_later w); [exact Hall|].
    right. reflexivity. }
  destruct (loadLists_run
              (setLists p (filter (fun x => negb (has_id listId x)) (lists p))) w2)
    as (data & p' & Hdata & Hrun & _ & _ & _ & _ & _ & _ & Hcases).
  rewrite Hrun. rewrite getReadingLists_fallback in * by assumption.
  cbn [fst snd] in *. injection Hdata as <-. destruct Hcases as [Hlists Herr].
  exists p'. split; [reflexivity|]. split; [exact Hlists|]. split; [exact Herr|].
  apply new_events_app. subst w2. unfold logged, after_fetch. cbn [trace].
  rewrite <- !app_assoc. reflexivity.
Qed.

Lemma handleDeleteList_on_the_fallback_witness :
  let p := Fixture.page_of [VObject Sample.list1; VObject Fixture.list2] in
  let w := Sample.world_of [NetworkDown; NetworkDown] in
  exists p',
    fst (handleDeleteList Fixture.to_string_of_strings true (str "1") p w) = Ok p' /\
    lists p' = [VObject Sample.list1].
Proof.
  assert (forall x, In x [VObject Sample.list1; VObject Fixture.list2] ->
                    nullish x = false) as Hls.
  { intros x [<-|[<-|[]]]; reflexivity. }
  destruct (handleDeleteList_on_the_fallback Fixture.to_string_of_strings
              (str "1")
              (Fixture.page_of [VObject Sample.list1; VObject Fixture.list2])
              (Sample.world_of [NetworkDown; NetworkDown])
              (VObject Sample.list1) (str "1")
              eq_refl Hls eq_refl eq_refl)
    as (p' & Hrun & Hlists & _).
  exists p'. split; [exact Hrun | exact Hlists].
Defined.

(* ====================================================================== *)
(** ** The book page *)
(* ====================================================================== *)

Lemma getBook_resolves (id : jstring) (w : world) :
  exists data, getBook id w = (Ok data, snd (getBook id w)).
Proof.
  destruct (resolves_run_call (fun _ => []) (CallGetBook id) eq_refl w)
    as [data Hdata].
  simpl in Hdata. exists data.
  destruct (getBook id w) as [r w1]. simpl in *. now subst.
Qed.

(** A run of [loadBook], from the book the layer gave it. *)
Lemma loadBook_run (runtime_message : exn -> jstring) (id : jstring)
    (s : BookDetail.state) (w : world) :
  exists data s' evs,
    fst (getBook id w) = Ok data /\
    fst (BookDetail.loadBook runtime_message id s w) = Ok s' /\
    trace (snd (BookDetail.loadBook runtime_message id s w))
    = trace (snd (getBook id w)) ++ evs /\
    (evs = [] \/ evs = [EReadMockBooks]) /\
    BookDetail.isLoading s' = false /\
    if truthy data
    then BookDetail.book s' = Some data /\ BookDetail.error s' = None
    else match find_by_id id (mockBooks w) with
         | Some b =>
             BookDetail.book s' = Some (VObject b) /\ BookDetail.error s' = None
         | None =>
             BookDetail.book s' = BookDetail.book s /\
             BookDetail.error s' = Some (BookDetail.not_found_message id)
         end.
Proof.
  destruct (getBook_resolves id w) as [data Hrun].
  pose proof (steady_run_call (fun _ => []) (CallGetBook id) w)
    as (Hbooks & _ & _ & _).
  cbn [run_call] in Hbooks.
  exists data. unfold BookDetail.loadBook, bind, try_catch. rewrite Hrun.
  cbn [fst snd]. destruct (truthy data).
  - eexists. exists []. cbn [fst snd ret]. rewrite app_nil_r. repeat split; auto.
  - unfold read_mockBooks, emit, bind. cbn [fst snd mockBooks]. rewrite Hbooks.
    destruct (find_by_id id (mockBooks w)); cbn [fst snd ret trace];
      eexists; exists [EReadMockBooks]; repeat split; auto.
Qed.

(** X14.  [loadBook] always comes to its end with the loading flag down, and its
    [catch] block never runs: the error handler is not called.  A truthy
    value from the layer becomes the book.  When the layer gives [null] (or
    another falsy value) the page looks into the mock books itself: the mock
    book of that id becomes the book, and only when there is none the error
    "Book with ID ... not found" is set. *)
Theorem loadBook_outcome (runtime_message : exn -> jstring) (id : jstring)
    (s : BookDetail.state) (w : world) :
  exists data s',
    fst (getBook id w) = Ok data /\
    fst (BookDetail.loadBook runtime_message id s w) = Ok s' /\
    BookDetail.isLoading s' = false /\
    (forall e,
       ~ In (EHandleApiError e)
            (new_events w (snd (BookDetail.loadBook runtime_message id s w)))) /\
    if truthy data
    then BookDetail.book s' = Some data /\ BookDetail.error s' = None
    else match find_by_id id (mockBooks w) with
         | Some b =>
             BookDetail.book s' = Some (VObject b) /\ BookDetail.error s' = None
         | None =>
             BookDetail.book s' = BookDetail.book s /\
             BookDetail.error s' = Some (BookDetail.not_found_message id)
         end.
Proof.
  destruct (loadBook_run runtime_message id s w)
    as (data & s' & evs & Hdata & Hrun & Ht & Hevs & Hloading & Hcases).
  exists data, s'. repeat split; auto.
  intros e Hin.
  destruct (one_request_run_call (fun _ => []) (CallGetBook id) w)
    as [[_ Ht1]|(_ & m & url & payload & evs1 & Ht1 & Hev1)];
    cbn [run_call] in Ht1; rewrite Ht1 in Ht.
  - rewrite (new_events_app _ _ _ Ht) in Hin.
    destruct Hevs as [-> | ->]; cbn in Hin; intuition discriminate.
  - rewrite <- app_assoc in Ht. rewrite (new_events_app _ _ _ Ht) in Hin.
    cbn in Hin. destruct Hin as [Hin|Hin]; [discriminate|].
    apply in_app_or in Hin as [Hin|Hin].
    + now apply (fallback_events_no_error evs1 e).
    + destruct Hevs as [-> | ->]; cbn in Hin; intuition discriminate.
Qed.

(** X15.  Whenever the request of the book page fails, a 404 included, a book
    that the mock store has is shown, without an error: on a 404 the layer
    gives [null] without looking at the mock store, and the page looks it up
    itself. *)
Theorem loadBook_shows_mock_book (runtime_message : exn -> jstring)
    (id : jstring) (s : BookDetail.state) (w : world) (b : obj) :
  request_fails w = true ->
  find_by_id id (mockBooks w) = Some b ->
  exists s',
    fst (BookDetail.loadBook runtime_message id s w) = Ok s' /\
    BookDetail.book s' = Some (VObject b) /\
    BookDetail.error s' = None /\
    BookDetail.isLoading s' = false.
Proof.
  intros Hfails Hfound.
  destruct (loadBook_run runtime_message id s w)
    as (data & s' & evs & Hdata & Hrun & _ & _ & Hloading & Hcases).
  exists s'. split; [exact Hrun|].
  destruct (status_404 w) eqn:H404.
  - rewrite getBook_not_found_status in Hdata by assumption.
    injection Hdata as <-. cbn [truthy] in Hcases. rewrite Hfound in Hcases.
    now destruct Hcases.
  - rewrite getBook_fallback in Hdata by assumption.
    unfold found in Hdata. rewrite Hfound in Hdata. injection Hdata as <-.
    cbn [truthy] in Hcases. now destruct Hcases.
Qed.

Lemma loadBook_shows_mock_book_witness :
  let w := Sample.world_of [Response 404 (str "Not Found")] in
  fst (getBook (str "1") w) = Ok VNull /\
  exists s',
    fst (BookDetail.loadBook Fixture.message (str "1") Fixture.detail0 w) = Ok s' /\
    BookDetail.book s' = Some (VObject Sample.book1).
Proof.
  split; [reflexivity|].
  destruct (loadBook_shows_mock_book Fixture.message (str "1") Fixture.detail0
              (Sample.world_of [Response 404 (str "Not Found")]) Sample.book1
              eq_refl eq_refl) as (s' & Hrun & Hbook & _).
  exists s'. split; [exact Hrun | exact Hbook].
Defined.

(** X16.  The book page contacts the backend exactly when its route has an id
    that is not empty; without one it sets "No book ID provided", stops
    loading and leaves the world as it is. *)
Theorem onMount_requests_iff_id (runtime_message : exn -> jstring)
    (id : option jstring) (s : BookDetail.state) (w : world) :
  (new_events w (snd (BookDetail.onMount runtime_message id s w)) <> [] <->
   exists c rest, id = Some (c :: rest)) /\
  (id = None \/ id = Some [] ->
   BookDetail.onMount runtime_message id s w
   = (Ok (BookDetail.mkState (BookDetail.book s) false
            (Some (str "No book ID provided"))), w)).
Proof.
  assert (new_events w w = []) as Hnone.
  { apply new_events_app. now rewrite app_nil_r. }
  split.
  - destruct id as [[|c rest]|]; cbn [BookDetail.onMount ret snd].
    + split; [intros H; now destruct H | intros (c & rest & [=])].
    + split; [intros _; now exists c, rest|]. intros _.
      destruct (loadBook_run runtime_message (c :: rest) s w)
        as (data & s' & evs & _ & _ & Ht & _).
      assert (exists evs1,
                trace (snd (getBook (c :: rest) w))
                = trace w ++ EFetch GET (API_BASE_URL ++ str "/books/" ++ c :: rest)
                               None :: evs1) as [evs1 Ht1].
      { unfold getBook. apply request_comes_first; intros; steady_walk. }
      rewrite Ht1, <- app_assoc in Ht.
      rewrite (new_events_app _ _ _ Ht). discriminate.
    + split; [intros H; now destruct H | intros (c & rest & [=])].
  - intros [-> | ->]; reflexivity.
Qed.

Lemma onMount_requests_iff_id_witness :
  let w := Sample.world_of [Response 200 Sample.book2_text] in
  BookDetail.onMount Fixture.message (Some []) Fixture.detail0 w
  = (Ok (BookDetail.mkState None false (Some (str "No book ID provided"))), w).
Proof.
  apply (proj2 (onMount_requests_iff_id Fixture.message (Some [])
                  Fixture.detail0
                  (Sample.world_of [Response 200 Sample.book2_text]))).
  now right.
Defined.

(* ====================================================================== *)
(** ** What a read of the mock store tells *)
(* ====================================================================== *)

Lemma only_the_request (w : world) m url payload (ev : event) :
  In ev (new_events w (after_fetch w m url payload)) ->
  ev = EFetch m url payload.
Proof.
  rewrite (new_events_app w (after_fetch w m url payload)
             [EFetch m url payload] eq_refl).
  intros [<-|[]]. reflexivity.
Qed.

Ltac fallback_or_not w :=
  match goal with
  | |- context [try_catch (bind (fetch ?m ?u ?p) ?k) ?h] =>
      let a := fresh "a" in
      let e := fresh "e" in
      destruct (try_fetch_cases m u p k h w) as [[a ->]|[e ->]];
        [ intros; quiet_walk
        | intros; settle_walk
        | let H := fresh "H" in
          intros H; apply only_the_request in H; discriminate
        | intros _ ]
  end.

(** X8.  Whatever made an operation fall back (no reply, a status that is not
    2xx, a body that cannot be read, a shape it does not accept), once it
    has read the mock store its outcome is the one computed from the store:
    the mock collection, the mock record of the requested id or [null], the
    stored record with the update laid over it and the requested id, or,
    for an update of an id the store lacks, a promise left pending. *)
Theorem mock_read_means_fallback_result
    (toISOString : Z -> jstring) (id : jstring) (partial : obj) (w : world) :
  (In EReadMockBooks (new_events w (snd (getBooks w))) ->
   fst (getBooks w) = Ok (VArray (map VObject (mockBooks w)))) /\
  (In EReadMockBooks (new_events w (snd (getBook id w))) ->
   fst (getBook id w) = Ok (found id (mockBooks w))) /\
  (In EReadMockReadingLists (new_events w (snd (getReadingLists w))) ->
   fst (getReadingLists w) = Ok (VArray (map VObject (mockReadingLists w)))) /\
  (In EReadMockBooks (new_events w (snd (updateBook id partial w))) ->
   fst (updateBook id partial w)
   = match find_by_id id (mockBooks w) with
     | Some existing =>
         Ok (VObject (obj_set (spread (spread [] existing) partial)
                        (str "id") (VString id)))
     | None => Hang (Error (str "Book " ++ id ++ str " not found"))
     end) /\
  (In EReadMockReadingLists
      (new_events w (snd (updateReadingList toISOString id partial w))) ->
   fst (updateReadingList toISOString id partial w)
   = match find_by_id id (mockReadingLists w) with
     | Some existing =>
         Ok (VObject
               (obj_set (obj_set (spread (spread [] existing) partial)
                  (str "id") (VString id))
                  (str "updatedAt") (VString (toISOString (clock w (ticks w))))))
     | None => Hang (Error (str "Reading list " ++ id ++ str " not found"))
     end).
Proof.
  repeat apply conj.
  - unfold getBooks. fallback_or_not w. reflexivity.
  - unfold getBook. fallback_or_not w.
    unfold bind, read_mockBooks, emit, found. cbn.
    now destruct (find_by_id id (mockBooks w)).
  - unfold getReadingLists. fallback_or_not w. reflexivity.
  - unfold updateBook. fallback_or_not w.
    unfold set_timeout, bind, read_mockBooks, emit. cbn.
    now destruct (find_by_id id (mockBooks w)).
  - unfold updateReadingList.
    destruct (negb (truthy (field partial (str "userId")))).
    + cbn [throw snd]. intros H.
      rewrite (new_events_app w w [] (eq_sym (app_nil_r _))) in H. destruct H.
    + fallback_or_not w.
      unfold set_timeout, bind, read_mockReadingLists, emit. cbn.
      now destruct (find_by_id id (mockReadingLists w)).
Qed.

Lemma mock_read_means_fallback_result_witness :
  let text := Sample.envelope (str "null") in
  let w := Sample.world_of [Response 200 text] in
  In EReadMockBooks (new_events w (snd (getBooks w))) /\
  fst (getBooks w) = Ok (VArray [VObject Sample.book1]).
Proof.
  assert (In EReadMockBooks
            (new_events (Sample.world_of [Response 200 (Sample.envelope (str "null"))])
               (snd (getBooks
                  (Sample.world_of [Response 200 (Sample.envelope (str "null"))])))))
    as Hread.
  { vm_compute. right. left. reflexivity. }
  split; [exact Hread|].
  apply (proj1 (mock_read_means_fallback_result Sample.iso (str "1") []
                  (Sample.world_of [Response 200 (Sample.envelope (str "null"))]))
           Hread).
Defined.

(* ====================================================================== *)
(** ** At the edges of the conversions *)
(* ====================================================================== *)

(** A literal below half of the least positive binary64 is the number zero;
    the least positive binary64 itself is not. *)
Lemma underflowing_literal_is_zero :
  JSON_parse (str "1e-400") = Some (VNumber 0 0) /\
  JSON_parse (str "2e-324") = Some (VNumber 0 0) /\
  JSON_parse (str "5e-324") = Some (VNumber 5 (-324)) /\
  truthy (VNumber 5 (-324)) = true.
Proof. repeat split; vm_compute; reflexivity. Qed.

(** An id that rounds to zero is falsy: [getBook] resolves to [null]. *)
Lemma getBook_underflowing_id :
  let w := Sample.world_of [Response 200 Edge.tiny_id_text] in
  JSON_parse Edge.tiny_id_text = Some (VObject [(str "id", VNumber 0 0)]) /\
  fst (getBook (str "1") w) = Ok VNull.
Proof. split; vm_compute; reflexivity. Qed.

(** A [success] that rounds to zero is falsy: [createReadingList] returns
    the body, not its [list]. *)
Lemma createReadingList_underflowing_success :
  let w := Sample.world_of [Response 200 Edge.tiny_success_text] in
  fst (createReadingList Sample.iso [] w)
  = Ok (VObject [ (str "success", VNumber 0 0);
                  (str "list", VObject [(str "id", VString (str "2"))]) ]).
Proof. vm_compute. reflexivity. Qed.

(** A count on which ToString raises: [getBooks] and [getReadingLists]
    leave the [try] block at their log line and resolve to the mock data. *)
Lemma reads_of_untextable_count :
  let w := Sample.world_of
             [Response 200 (Sample.envelope Edge.untextable_count_escaped)] in
  fst (getBooks w) = Ok (VArray [VObject Sample.book1]) /\
  fst (getReadingLists w) = Ok (VArray [VObject Sample.list1]).
Proof. split; vm_compute; reflexivity. Qed.

(** A title on which ToString raises: [getBook] leaves the [try] block at
    its log line and resolves to the mock book of the id asked for. *)
Lemma getBook_untextable_title :
  let w := Sample.world_of [Response 200 Edge.untextable_title_text] in
  JSON_parse Edge.untextable_title_text
  = Some (VObject [ (str "id", VString (str "5"));
                    (str "title",
                     VArray [VNumber 1 0; VObject [(str "toString", VNull)]]) ]) /\
  fst (getBook (str "1") w) = Ok (VObject Sample.book1) /\
  fst (getBook (str "9") w) = Ok VNull.
Proof. repeat split; vm_compute; reflexivity. Qed.
